(** * 03a_Intro_to_GIS_Revised.py: the notebook script and its properties

    The repository holds one exported notebook,
    [03-Intro-to-GIS/03a_Intro_to_GIS_Revised.py].  It defines no function:
    it is a straight-line sequence of top-level statements, every one of
    which imports, binds or displays a value obtained from a library.

    The development has these layers:
    - [Py]: the fragment of Python the script is written in, as syntax
      trees, with the generic traversals (names read, names bound, calls);
    - [Notebook]: the statements of the script, line by line;
    - [Flow]: an executable analysis of a straight-line script: definition
      before use, and an abstract run that follows string constants, the
      origin and the reference-system tag of every frame, and records the
      library calls in the order they happen;
    - [Exec]: the execution of a statement list over an arbitrary library,
      with exceptions;
    - [Geo]: the data model of the libraries, which are not part of the
      repository, as far as the properties need it;
    - [Props]: what the properties speak about, read off the trace;
    - [Uses]: further readings of the script: the values methods are
      called on, the files and directories touched, the interactive maps;
    - [Coordinates]: the coordinates the script hands to the libraries and
      what they measure, by the reference system of the frame they are
      taken from;
    - [ExecFacts], [GeoFacts] and the properties of the script. *)

From Stdlib Require Import List String Ascii ZArith QArith Bool Arith Lia.
From Stdlib Require Import Qminmax.
Import ListNotations.
Local Close Scope Q_scope.
Local Open Scope string_scope.
Set Warnings "-register-all".

(* ===================================================================== *)
(** ** The Python fragment *)
(* ===================================================================== *)

Module Py.

(** Expressions.  Numeric literals keep the two kinds Python has: integers
    and decimal floats (the exact decimal value written in the source).  A
    leading minus sign is the unary operator, as in Python's grammar. *)
Inductive expr : Type :=
| ENone
| EBool (b : bool)
| EInt (z : Z)
| EFloat (q : Q)
| EStr (s : string)
| EName (x : string)
| EAttr (e : expr) (a : string)                       (* e.a *)
| ECall (f : expr) (args : list expr) (kws : list (string * expr))
| ESubscript (e : expr) (i : expr)                    (* e[i] *)
| ESlice (lo hi : expr)                               (* lo:hi *)
| ETuple (es : list expr)
| EList (es : list expr)
| ENeg (e : expr)                                     (* -e *)
| EBinOp (op : string) (l r : expr)                   (* l op r *)
| ELambda (params : list string) (body : expr)
| EAwait (e : expr).

(** Statements.  The simple statements are the ones the script uses; the
    compound ones are the constructs whose absence the properties are
    about. *)
Inductive stmt : Type :=
| SImport (module : string) (asname : option string)  (* import m [as n] *)
| SFromImport (module : string) (names : list (string * option string))
| SAssign (target : expr) (value : expr)              (* target = value *)
| SExpr (e : expr)                                    (* e *)
| STry (body : list stmt) (handler : list stmt)       (* try/except *)
| SIf (cond : expr) (body : list stmt) (orelse : list stmt)
| SWhile (cond : expr) (body : list stmt)
| SDef (is_async : bool) (name : string) (params : list string)
       (body : list stmt).

(** Sub-expressions of an expression, itself included, in evaluation order
    (callee and receiver first, then positional and keyword arguments). *)
Fixpoint subexprs (e : expr) : list expr :=
  e ::
  match e with
  | EAttr e1 _ => subexprs e1
  | ECall f args kws =>
      subexprs f ++ flat_map subexprs args
                 ++ flat_map (fun kv => subexprs (snd kv)) kws
  | ESubscript e1 i => subexprs e1 ++ subexprs i
  | ESlice lo hi => subexprs lo ++ subexprs hi
  | ETuple es | EList es => flat_map subexprs es
  | ENeg e1 | EAwait e1 => subexprs e1
  | EBinOp _ l r => subexprs l ++ subexprs r
  | ELambda _ b => subexprs b
  | _ => []
  end.

(** The expressions a statement evaluates.  An assignment evaluates its
    right-hand side first, then the parts of its target that are read (the
    container and the index of a subscript target). *)
Definition target_reads (t : expr) : list expr :=
  match t with
  | ESubscript c i => [c; i]
  | EAttr c _ => [c]
  | _ => []
  end.

(** The names an assignment target binds: a name, or a tuple of names. *)
Definition target_binds (t : expr) : list string :=
  match t with
  | EName x => [x]
  | ETuple es | EList es =>
      flat_map (fun e => match e with EName x => [x] | _ => [] end) es
  | _ => []
  end.

Definition last_component (m : string) : string :=
  let fix go (acc : string) (s : string) : string :=
    match s with
    | EmptyString => acc
    | String c rest =>
        if Ascii.eqb c "."%char then go EmptyString rest
        else go (acc ++ String c EmptyString) rest
    end in
  go EmptyString m.

Definition first_component (m : string) : string :=
  let fix go (s : string) : string :=
    match s with
    | EmptyString => EmptyString
    | String c rest =>
        if Ascii.eqb c "."%char then EmptyString else String c (go rest)
    end in
  go m.

(** Top-level expressions of a simple statement; compound statements
    contribute their guards only (their bodies are statements). *)
Definition stmt_exprs (s : stmt) : list expr :=
  match s with
  | SAssign t v => v :: target_reads t
  | SExpr e => [e]
  | SIf c _ _ | SWhile c _ => [c]
  | _ => []
  end.

(** Names bound by a simple statement.  [import a.b.c] binds [a];
    [import a.b.c as n] binds [n]; [from m import x as y] binds [y]. *)
Definition stmt_binds (s : stmt) : list string :=
  match s with
  | SImport m None => [first_component m]
  | SImport _ (Some n) => [n]
  | SFromImport _ names =>
      map (fun p => match snd p with Some n => n | None => fst p end) names
  | SAssign t _ => target_binds t
  | SDef _ f _ _ => [f]
  | _ => []
  end.

(** Names read by an expression. *)
Definition names_of (e : expr) : list string :=
  flat_map (fun e' => match e' with EName x => [x] | _ => [] end)
             (subexprs e).

Definition stmt_reads (s : stmt) : list string :=
  flat_map names_of (stmt_exprs s).

(** All expressions nested in a statement's top-level expressions. *)
Definition stmt_subexprs (s : stmt) : list expr :=
  flat_map subexprs (stmt_exprs s).

Definition is_call (e : expr) : bool :=
  match e with ECall _ _ _ => true | _ => false end.

(** The calls made by a statement, in evaluation order of their
    sub-expressions. *)
Definition stmt_calls (s : stmt) : list expr :=
  filter is_call (stmt_subexprs s).

(** [e] is the call [root.name(...)] on the name [root]. *)
Definition is_call_of (root name : string) (e : expr) : bool :=
  match e with
  | ECall (EAttr (EName r) a) _ _ => String.eqb r root && String.eqb a name
  | _ => false
  end.

Definition kwarg (k : string) (e : expr) : option expr :=
  match e with
  | ECall _ _ kws =>
      match find (fun kv => String.eqb (fst kv) k) kws with
      | Some kv => Some (snd kv)
      | None => None
      end
  | _ => None
  end.

Definition posarg (n : nat) (e : expr) : option expr :=
  match e with
  | ECall _ args _ => nth_error args n
  | _ => None
  end.

(** A simple statement is an import, an assignment or an expression. *)
Definition is_simple (s : stmt) : bool :=
  match s with
  | SImport _ _ | SFromImport _ _ | SAssign _ _ | SExpr _ => true
  | _ => false
  end.

Definition is_try (s : stmt) : bool :=
  match s with STry _ _ => true | _ => false end.

End Py.

(* ===================================================================== *)
(** ** The script *)
(* ===================================================================== *)

Module Notebook.
Import Py.

(** Abbreviations for the shapes the script is made of. *)
Definition name (x : string) : expr := EName x.
Definition dots (root : string) (attrs : list string) : expr :=
  fold_left EAttr attrs (EName root).
Definition meth (recv : expr) (m : string) (args : list expr)
           (kws : list (string * expr)) : expr :=
  ECall (EAttr recv m) args kws.
Definition pair_of (a b : Z) : expr := ETuple [EInt a; EInt b].

(** Line 430: the coordinate tuples of the MIT main campus, as written
    (unary minus applied to the decimal literal). *)
Definition coordinates : list (Q * Q) :=
  [ (-(71092562 # 1000000), 42357602 # 1000000);
    (-(71080155 # 1000000), 42361553 # 1000000);
    (-(71089817 # 1000000), 42362584 # 1000000);
    (-(71094688 # 1000000), 42360198 # 1000000) ]%Q.

(** The list display of line 430. *)
Definition coordinates_literal : expr :=
  EList
    [ ETuple [ENeg (EFloat (71092562 # 1000000)); EFloat (42357602 # 1000000)];
      ETuple [ENeg (EFloat (71080155 # 1000000)); EFloat (42361553 # 1000000)];
      ETuple [ENeg (EFloat (71089817 # 1000000)); EFloat (42362584 # 1000000)];
      ETuple [ENeg (EFloat (71094688 # 1000000)); EFloat (42360198 # 1000000)] ].

(** Lines 350-356 and 374-380: the column selection of the health sites. *)
Definition health_columns : expr :=
  ESubscript (name "health_sites_gdf")
    (EList [EStr "name"; EStr "amenity"; EStr "addr_street";
            EStr "addr_city"; EStr "addr_postcode"; EStr "healthcare";
            EStr "geometry"]).

Definition voyager : expr := dots "xyz" ["CartoDB"; "Voyager"].
Definition data_crs : expr := EAttr (name "data") "crs".
Definition epsg3857 : list (string * expr) := [("epsg", EInt 3857)].

(** The statements of the script, each with the line it starts on. *)
Definition script : list (nat * stmt) :=
  [ (14, SImport "geopandas" (Some "gpd"));
    (15, SImport "contextily" (Some "ctx"));
    (16, SFromImport "shapely.geometry"
           [("Point", None); ("LineString", None); ("Polygon", None)]);
    (17, SFromImport "matplotlib" [("pyplot", Some "plt")]);
    (18, SImport "folium" None);
    (32, SImport "fiona" None);
    (32, SExpr (dots "fiona" ["supported_drivers"]));
    (48, SExpr (meth (ECall (name "get_ipython") [] []) "system"
           [EStr "unzip phl_ica_floodrisk_geonode_mar2014.zip -d philippines_flood_risk"]
           []));
    (55, SAssign (name "filepath")
           (EStr "philippines_flood_risk/phl_ica_floodrisk_geonode_mar2014.shp"));
    (58, SAssign (name "data")
           (meth (name "gpd") "read_file" [name "filepath"] []));
    (64, SExpr (meth (name "data") "head" [] []));
    (70, SExpr (dots "data" ["columns"]));
    (77, SExpr (ECall (name "type")
           [ESubscript
              (EAttr (ESubscript (name "data") (EStr "geometry")) "iloc")
              (EInt 0)] []));
    (85, SExpr (ESubscript (name "data") (EStr "geometry")));
    (93, SExpr (dots "data" ["bounds"]));
    (100, SExpr (dots "data" ["boundary"]));
    (130, SExpr data_crs);
    (137, SExpr (dots "data" ["area"]));
    (143, SAssign (name "data_in_3857")
            (meth (name "data") "to_crs" [EStr "epsg:3857"] []));
    (144, SExpr (dots "data_in_3857" ["area"]));
    (169, SAssign (name "ax")
            (meth (name "data") "plot" []
               [("figsize", pair_of 10 5); ("alpha", EFloat (6 # 10));
                ("cmap", EStr "Set2")]));
    (179, SAssign (name "ax")
            (meth (name "data") "plot" []
               [("figsize", pair_of 10 10); ("alpha", EFloat (6 # 10));
                ("cmap", EStr "Set2"); ("column", EStr "FloodText");
                ("legend", EBool true)]));
    (190, SAssign (name "ax")
            (meth (name "data") "plot" []
               [("figsize", pair_of 10 5); ("alpha", EFloat (6 # 10));
                ("cmap", EStr "Reds"); ("column", EStr "FloodClass");
                ("legend", EBool true)]));
    (193, SExpr (meth (name "ax") "set_title"
            [EStr "Flood Classes in the Philippines"]
            [("fontsize", EInt 15)]));
    (196, SExpr (meth (name "ax") "set_xlabel" [EStr "Longitude"]
            [("fontsize", EInt 12)]));
    (197, SExpr (meth (name "ax") "set_ylabel" [EStr "Latitude"]
            [("fontsize", EInt 12)]));
    (199, SExpr (meth (name "plt") "show" [] []));
    (211, SExpr data_crs);
    (217, SAssign (name "ax")
            (meth (name "data") "plot" []
               [("figsize", pair_of 10 8); ("column", EStr "FloodText");
                ("legend", EBool true)]));
    (221, SExpr (meth (name "ctx") "add_basemap" [name "ax"]
            [("crs", data_crs);
             ("source", dots "ctx" ["providers"; "Gaode"; "Normal"])]));
    (228, SAssign (name "ax")
            (meth (name "data") "plot" []
               [("figsize", pair_of 10 5); ("cmap", EStr "Set2");
                ("column", EStr "FloodText")]));
    (229, SExpr (meth (name "ax") "set_xlim"
            [EList [EInt 115; EInt 130]] []));
    (230, SExpr (meth (name "ax") "set_ylim"
            [EList [ENeg (EInt 0); EInt 25]] []));
    (231, SExpr (meth (name "ctx") "add_basemap" [name "ax"]
            [("crs", data_crs);
             ("source", dots "ctx" ["providers"; "OpenStreetMap"; "Mapnik"])]));
    (243, SExpr (dots "ctx" ["providers"]));
    (251, SAssign (name "ax")
            (meth (name "data") "plot" []
               [("figsize", pair_of 10 5); ("alpha", EFloat (6 # 10));
                ("column", EStr "FloodText"); ("legend", EBool true)]));
    (254, SExpr (meth (name "ctx") "add_basemap" [name "ax"]
            [("crs", data_crs);
             ("source", dots "ctx" ["providers"; "Gaode"; "Normal"])]));
    (256, SExpr (meth (name "ctx") "add_basemap" [name "ax"]
            [("crs", data_crs);
             ("source",
              dots "ctx" ["providers"; "CartoDB"; "DarkMatterOnlyLabels"])]));
    (264, SAssign (ETuple [name "w"; name "s"; name "e"; name "n"])
            (dots "data" ["total_bounds"]));
    (265, SExpr (dots "data" ["total_bounds"]));
    (273, SAssign (ETuple [name "img"; name "ext"])
            (meth (name "ctx") "bounds2img"
               [name "w"; name "s"; name "e"; name "n"; EInt 6]
               [("ll", EBool true);
                ("source", dots "ctx" ["providers"; "Gaode"; "Normal"])]));
    (274, SAssign (name "fig") (meth (name "plt") "figure" [] []));
    (275, SAssign (name "ax")
            (meth (name "fig") "add_subplot" [EInt 1; EInt 1; EInt 1] []));
    (276, SExpr (meth (name "ax") "imshow" [name "img"]
            [("extent", name "ext")]));
    (278, SExpr (meth (meth (name "data") "to_crs" [] epsg3857) "plot" []
            [("ax", name "ax"); ("cmap", EStr "Set3");
             ("alpha", EFloat (8 # 10))]));
    (279, SAssign (name "ax_bounds")
            (EAttr (meth (name "data") "to_crs" [] epsg3857) "total_bounds"));
    (280, SExpr (meth (name "ax") "set" []
            [("xlim", EList [ESubscript (name "ax_bounds") (EInt 0);
                             ESubscript (name "ax_bounds") (EInt 2)]);
             ("ylim", EList [ESubscript (name "ax_bounds") (EInt 1);
                             ESubscript (name "ax_bounds") (EInt 3)])]));
    (281, SExpr (meth (name "plt") "axis" [EStr "off"] []));
    (282, SExpr (meth (name "plt") "savefig"
            [EStr "watercolor_example.png"] []));
    (294, SAssign (name "m")
            (meth (name "data") "explore" [EStr "FloodClass"] []));
    (295, SExpr (name "m"));
    (305, SImport "xyzservices.providers" (Some "xyz"));
    (306, SExpr (name "xyz"));
    (312, SExpr (meth (name "data") "explore" [EStr "FloodClass"]
            [("tiles", voyager)]));
    (320, SAssign (name "health_sites_gdf")
            (meth (name "gpd") "read_file"
               [EStr "philippines_healthsites.geojson"]
               [("driver", EStr "GeoJSON")]));
    (321, SExpr (name "health_sites_gdf"));
    (328, SExpr (meth (name "health_sites_gdf") "explore" [] []));
    (334, SExpr (dots "health_sites_gdf" ["dtypes"]));
    (341, SAssign
            (ESubscript (name "health_sites_gdf") (EStr "changeset_timestamp"))
            (meth (ESubscript (name "health_sites_gdf")
                     (EStr "changeset_timestamp"))
               "astype" [name "str"] []));
    (348, SAssign (name "m")
            (meth (name "data") "explore" [EStr "FloodClass"]
               [("tiles", voyager)]));
    (350, SAssign (name "m")
            (meth health_columns "explore" [] [("m", name "m")]));
    (357, SExpr (name "m"));
    (365, SAssign (name "data_centroid")
            (ESubscript
               (EAttr (EAttr (meth (name "data") "dissolve" [] []) "centroid")
                  "values")
               (EInt 0)));
    (366, SAssign (name "m")
            (meth (name "folium") "Map" []
               [("location",
                 ETuple [EAttr (name "data_centroid") "y";
                         EAttr (name "data_centroid") "x"]);
                ("zoom_start", EInt 5);
                ("height", EInt 600); ("width", EInt 500)]));
    (369, SAssign (name "m")
            (meth (name "data") "explore" [EStr "FloodClass"]
               [("tiles", voyager); ("m", name "m");
                ("name", EStr "Flood Class")]));
    (374, SAssign (name "m")
            (meth health_columns "explore" []
               [("m", name "m"); ("name", EStr "healthcare")]));
    (383, SExpr (meth (meth (name "folium") "LayerControl" [] []) "add_to"
            [name "m"] []));
    (384, SExpr (name "m"));
    (394, SExpr (meth (ECall (name "get_ipython") [] []) "system"
            [EStr "mkdir output_data -p"] []));
    (401, SAssign (name "outfp") (EStr "output_data/data_selection.json"));
    (404, SAssign (name "selection")
            (ESubscript (name "data") (ESlice (EInt 0) (EInt 20))));
    (407, SExpr (meth (name "selection") "to_file" [name "outfp"]
            [("driver", EStr "GeoJSON")]));
    (417, SAssign (name "newdata") (meth (name "gpd") "GeoDataFrame" [] []));
    (420, SAssign (ESubscript (name "newdata") (EStr "geometry")) ENone);
    (423, SExpr (ECall (name "print") [name "newdata"] []));
    (430, SAssign (name "coordinates") coordinates_literal);
    (433, SAssign (name "poly")
            (ECall (name "Polygon") [name "coordinates"] []));
    (436, SExpr (name "poly"));
    (443, SAssign
            (ESubscript (EAttr (name "newdata") "loc")
               (ETuple [EInt 0; EStr "geometry"]))
            (name "poly"));
    (444, SExpr (name "newdata"));
    (450, SAssign
            (ESubscript (EAttr (name "newdata") "loc")
               (ETuple [EInt 0; EStr "location"]))
            (EStr "MIT main campus"));
    (451, SExpr (name "newdata"));
    (460, SAssign (name "newdata")
            (meth (name "newdata") "set_crs" [EStr "epsg:4326"] []));
    (463, SExpr (dots "newdata" ["crs"]));
    (469, SAssign (name "outfp") (EStr "output_data/MIT_campus.shp"));
    (472, SExpr (meth (name "newdata") "to_file" [name "outfp"] []));
    (479, SAssign (name "ax")
            (meth (meth (name "newdata") "to_crs" [] epsg3857) "plot" []
               [("figsize", pair_of 10 5); ("alpha", EFloat (5 # 10));
                ("color", EStr "#FF55FF")]));
    (480, SExpr (meth (name "ctx") "add_basemap" [name "ax"]
            [("source", voyager)]));
    (481, SExpr (meth (name "ax") "set_axis_off" [] []));
    (482, SExpr (meth (name "plt") "savefig"
            [EStr "MIT_main_campus_poly.png"] [])) ].

Definition statements : list stmt := map snd script.

(** Names available before the first statement: the Python builtins the
    script uses and the [get_ipython] the notebook shell provides. *)
Definition builtins : list string := ["type"; "print"; "str"; "get_ipython"].

End Notebook.

(* ===================================================================== *)
(** ** Analyses of a straight-line script *)
(* ===================================================================== *)

Module Flow.
Import Py.
Local Open Scope list_scope.

Definition mem (x : string) (l : list string) : bool :=
  existsb (String.eqb x) l.

(** *** Definition before use *)

(** Every name a statement reads is a builtin or was bound by an earlier
    statement. *)
Fixpoint defined_before_use (known : list string) (p : list stmt) : bool :=
  match p with
  | [] => true
  | s :: rest =>
      forallb (fun x => mem x known) (stmt_reads s)
      && defined_before_use (stmt_binds s ++ known) rest
  end.

(** *** Abstract values *)

(** Where a frame comes from: read from a file, or built in memory.  The
    line is the one of the statement that produced it. *)
Inductive origin : Type :=
| FromFile (line : nat) (path : option string)
| InMemory (line : nat).

(** The reference-system tag a frame carries: the one recorded in the file
    it was read from, one set by the script, or none yet. *)
Inductive crs_tag : Type :=
| CrsOfFile (path : option string)
| CrsEPSG (code : Z)
| CrsUnset
| CrsUnknown.

(** The two coordinate axes: [X] is the east-west one (the longitude in a
    geographic reference system), [Y] the north-south one (the latitude). *)
Inductive axis : Type := X | Y.

Inductive aval : Type :=
| AGeo (o : origin) (c : crs_tag)   (* a frame, series or geometry *)
| ACoord (a : axis)                 (* a coordinate taken from a geometry *)
| ABounds                           (* a total_bounds array *)
| AFigure                           (* a matplotlib figure *)
| AAxes (by_plot : bool)            (* matplotlib axes; returned by plot? *)
| ANum (q : Q)                      (* a numeric constant *)
| AStr (s : string)                 (* a string constant *)
| ASeq (items : list aval)          (* a tuple or list display *)
| AModule (m : string)              (* an imported module *)
| AMember (m n : string)            (* a name imported from a module *)
| AShell                            (* the notebook shell, get_ipython() *)
| AObj (lib : string)               (* any other object of a library *)
| AOther.

(** What the analysis records, in evaluation order. *)
Inductive event : Type :=
| Load (path driver : option string)            (* gpd.read_file *)
| Create                                        (* GeoDataFrame(), Polygon() *)
| Inspect (o : origin) (what : string)          (* attribute or method read *)
| Mutate (o : origin)                           (* item assignment *)
| SetCrs (o : origin) (c : crs_tag)             (* set_crs *)
| Reproject (o : origin) (from to : crs_tag)    (* to_crs *)
| Area (o : origin) (c : crs_tag)               (* .area *)
| Render (how : string) (o : origin) (c : crs_tag)   (* plot, explore *)
| Basemap (axes : aval)                         (* ctx.add_basemap *)
| Export (o : origin) (path driver : option string)  (* to_file *)
| Shell (cmd : string)                          (* get_ipython().system *)
| Coords (consumer : string) (expected : list axis) (given : list aval)
| AxisLabel (a : axis) (text : aval)
| Call (lib : option string) (f : string).      (* any call, by library *)

Definition env : Type := list (string * aval).

Fixpoint lookup (en : env) (x : string) : aval :=
  match en with
  | [] => AOther
  | (y, v) :: rest => if String.eqb x y then v else lookup rest x
  end.

Definition str_of (v : aval) : option string :=
  match v with AStr s => Some s | _ => None end.

(** *** Reference-system arguments *)

Fixpoint digits (s : string) (acc : Z) : option Z :=
  match s with
  | EmptyString => Some acc
  | String c r =>
      let d := (Z.of_nat (nat_of_ascii c) - 48)%Z in
      if ((0 <=? d) && (d <=? 9))%Z then digits r (10 * acc + d)%Z else None
  end.

(** ['epsg:3857'] names the code 3857. *)
Definition parse_epsg (s : string) : option Z :=
  if String.prefix "epsg:" s && (5 <? String.length s)%nat
  then digits (substring 5 (String.length s - 5) s) 0
  else None.

Definition assoc {A} (k : string) (l : list (string * A)) : option A :=
  match find (fun kv => String.eqb (fst kv) k) l with
  | Some kv => Some (snd kv)
  | None => None
  end.

Definition is_integer (q : Q) : option Z :=
  if (Zpos (Qden q) =? 1)%Z then Some (Qnum q) else None.

(** The target of [to_crs] and [set_crs]: the first positional argument
    (a string ['epsg:N']) or the keyword [epsg=N]. *)
Definition crs_arg (pos : list aval) (kw : list (string * aval)) : crs_tag :=
  match pos with
  | AStr s :: _ =>
      match parse_epsg s with Some n => CrsEPSG n | None => CrsUnknown end
  | _ =>
      match assoc "epsg" kw with
      | Some (ANum q) =>
          match is_integer q with Some n => CrsEPSG n | None => CrsUnknown end
      | _ => CrsUnknown
      end
  end.

(** *** Abstract evaluation *)

(** Modelled from the spec: the interface of geopandas, which is not part
    of the repository.  Attributes of a frame whose value still carries
    geometry. *)
Definition geometry_attrs : list string :=
  ["geometry"; "boundary"; "centroid"; "values"; "iloc"; "loc"].

(** Modelled from the spec: the interface of geopandas and shapely, which
    are not part of the repository.  [.x] and [.y] of a geometry are its
    coordinates on the two axes, [.total_bounds] is the bounds array; any
    other attribute is some object of the library. *)
Definition attr_value (rv : aval) (a : string) : aval :=
  match rv with
  | AGeo o c =>
      if mem a geometry_attrs then AGeo o c
      else if String.eqb a "x" then ACoord X
      else if String.eqb a "y" then ACoord Y
      else if String.eqb a "total_bounds" then ABounds
      else AObj "geopandas"
  | AModule m => AObj (first_component m)
  | AObj l => AObj l
  | _ => AOther
  end.

Definition attr_events (rv : aval) (a : string) : list event :=
  match rv with
  | AGeo o c => if String.eqb a "area" then [Area o c] else [Inspect o a]
  | _ => []
  end.

(** Modelled from the spec: [total_bounds] of geopandas, which is not part
    of the repository, is (minx, miny, maxx, maxy): even positions are on
    the X axis, odd ones on the Y axis. *)
Definition bounds_axes : list axis := [X; Y; X; Y].

Definition subscript_value (rv iv : aval) : aval :=
  match rv, iv with
  | AGeo o c, _ => AGeo o c
  | ABounds, ANum q =>
      match is_integer q with
      | Some n =>
          match nth_error bounds_axes (Z.to_nat n) with
          | Some a => if (0 <=? n)%Z then ACoord a else AOther
          | None => AOther
          end
      | None => AOther
      end
  | _, _ => AOther
  end.

Definition items_of (v : aval) : list aval :=
  match v with ASeq l => l | _ => [] end.

(** The library a value belongs to; constants belong to none. *)
Definition lib_of (v : aval) : option string :=
  match v with
  | AGeo _ _ | ACoord _ | ABounds => Some "geopandas"
  | AFigure | AAxes _ => Some "matplotlib"
  | AModule m | AMember m _ => Some (first_component m)
  | AShell => Some "IPython"
  | AObj l => Some l
  | ANum _ | AStr _ | ASeq _ | AOther => None
  end.

Definition first_or (d : aval) (l : list aval) : aval :=
  match l with v :: _ => v | [] => d end.

Definition str_arg (o : option aval) : option string :=
  match o with Some v => str_of v | None => None end.

(** Modelled from the spec: the interfaces of geopandas, contextily, folium
    and matplotlib, which are not part of the repository, as far as the
    script calls them: what a call returns (a frame, an axes, something
    else of the library) and in which order it takes coordinates.
    [ctx.bounds2img] takes west, south, east, north; [folium.Map] takes
    [location] as (latitude, longitude); the limits of the x axis are x
    values and those of the y axis y values.

    A method call [rv.m(pos, kw)] at [line]: its value and its events. *)
Definition call_method (line : nat) (rv : aval) (m : string)
           (pos : list aval) (kw : list (string * aval))
  : aval * list event :=
  match rv with
  | AModule "geopandas" =>
      if String.eqb m "read_file" then
        let path := str_arg (hd_error pos) in
        (AGeo (FromFile line path) (CrsOfFile path),
         [Load path (str_arg (assoc "driver" kw))])
      else if String.eqb m "GeoDataFrame" then
        (AGeo (InMemory line) CrsUnset, [Create])
      else (AObj "geopandas", [])
  | AModule "contextily" =>
      if String.eqb m "add_basemap" then
        (AObj "contextily", [Basemap (first_or AOther pos)])
      else if String.eqb m "bounds2img" then
        (AObj "contextily", [Coords "bounds2img" bounds_axes (firstn 4 pos)])
      else (AObj "contextily", [])
  | AModule "folium" =>
      if String.eqb m "Map" then
        (AObj "folium",
         match assoc "location" kw with
         | Some loc => [Coords "folium.Map" [Y; X] (items_of loc)]
         | None => []
         end)
      else (AObj "folium", [])
  | AGeo o c =>
      if String.eqb m "to_crs" then
        let t := crs_arg pos kw in (AGeo o t, [Reproject o c t])
      else if String.eqb m "set_crs" then
        let t := crs_arg pos kw in (AGeo o t, [SetCrs o t])
      else if String.eqb m "plot" then (AAxes true, [Render "plot" o c])
      else if String.eqb m "explore" then
        (AObj "folium", [Render "explore" o c])
      else if String.eqb m "to_file" then
        (AOther, [Export o (str_arg (hd_error pos))
                           (str_arg (assoc "driver" kw))])
      else if mem m ["dissolve"; "head"] then (AGeo o c, [Inspect o m])
      else (AObj "geopandas", [Inspect o m])
  | AAxes _ =>
      if String.eqb m "set_xlim" then
        (AObj "matplotlib",
         [Coords "set_xlim" [X; X] (items_of (first_or AOther pos))])
      else if String.eqb m "set_ylim" then
        (AObj "matplotlib",
         [Coords "set_ylim" [Y; Y] (items_of (first_or AOther pos))])
      else if String.eqb m "set_xlabel" then
        (AObj "matplotlib", [AxisLabel X (first_or AOther pos)])
      else if String.eqb m "set_ylabel" then
        (AObj "matplotlib", [AxisLabel Y (first_or AOther pos)])
      else if String.eqb m "set" then
        (AObj "matplotlib",
         (match assoc "xlim" kw with
          | Some v => [Coords "set(xlim)" [X; X] (items_of v)]
          | None => []
          end
          ++
          match assoc "ylim" kw with
          | Some v => [Coords "set(ylim)" [Y; Y] (items_of v)]
          | None => []
          end)%list)
      else (AObj "matplotlib", [])
  | AMember "matplotlib" "pyplot" =>
      if String.eqb m "figure" then (AFigure, []) else (AObj "matplotlib", [])
  | AFigure =>
      if String.eqb m "add_subplot" then (AAxes false, [])
      else (AObj "matplotlib", [])
  | AShell =>
      if String.eqb m "system" then
        (AOther, match pos with AStr cmd :: _ => [Shell cmd] | _ => [] end)
      else (AOther, [])
  | AModule l => (AObj (first_component l), [])
  | AObj l => (AObj l, [])
  | _ => (AOther, [])
  end.

(** Modelled from the spec: the constructors of shapely, which is not part
    of the repository, take coordinate tuples as (x, y).  One event per
    coordinate tuple handed to a constructor. *)
Definition tuple_coords (consumer : string) (v : aval) : list event :=
  map (fun t => Coords consumer [X; Y] (items_of t)) (items_of v).

(** A call [fv(pos, kw)] of a value that is not a method of something. *)
Definition call_function (line : nat) (fv : aval)
           (pos : list aval) (kw : list (string * aval))
  : aval * list event :=
  match fv with
  | AMember "shapely.geometry" n =>
      (AGeo (InMemory line) CrsUnset,
       Create :: tuple_coords n (first_or AOther pos))
  | AMember "IPython" "get_ipython" => (AShell, [])
  | _ => (AOther, [])
  end.

(** The name a call is made under: the method, or the function name. *)
Definition callee_name (f : expr) : string :=
  match f with
  | EAttr _ m => m
  | EName x => x
  | _ => ""
  end.

Fixpoint aeval (line : nat) (en : env) (e : expr) {struct e}
  : aval * list event :=
  match e with
  | ENone | EBool _ => (AOther, [])
  | EInt z => (ANum (inject_Z z), [])
  | EFloat q => (ANum q, [])
  | EStr s => (AStr s, [])
  | EName x => (lookup en x, [])
  | EAttr r a =>
      let '(rv, evs) := aeval line en r in
      (attr_value rv a, evs ++ attr_events rv a)
  | ECall f args kws =>
      let pos := map (aeval line en) args in
      let kw := map (fun kv => (fst kv, aeval line en (snd kv))) kws in
      let arg_events :=
        flat_map snd pos ++ flat_map (fun kv => snd (snd kv)) kw in
      let pos_vals := map fst pos in
      let kw_vals := map (fun kv => (fst kv, fst (snd kv))) kw in
      match f with
      | EAttr r m =>
          let '(rv, evs) := aeval line en r in
          let '(v, ev) := call_method line rv m pos_vals kw_vals in
          (v, evs ++ arg_events ++ Call (lib_of rv) m :: ev)
      | _ =>
          let '(fv, evs) := aeval line en f in
          let '(v, ev) := call_function line fv pos_vals kw_vals in
          (v, evs ++ arg_events ++ Call (lib_of fv) (callee_name f) :: ev)
      end
  | ESubscript r i =>
      let '(rv, evs) := aeval line en r in
      let '(iv, evi) := aeval line en i in
      (subscript_value rv iv,
       evs ++ evi ++ match rv with AGeo o _ => [Inspect o "[]"] | _ => [] end)
  | ESlice lo hi =>
      (AOther, snd (aeval line en lo) ++ snd (aeval line en hi))
  | ETuple es | EList es =>
      let vs := map (aeval line en) es in
      (ASeq (map fst vs), flat_map snd vs)
  | ENeg e1 =>
      let '(v, evs) := aeval line en e1 in
      (match v with ANum q => ANum (Qopp q) | _ => AOther end, evs)
  | EBinOp _ l r =>
      (AOther, snd (aeval line en l) ++ snd (aeval line en r))
  | ELambda _ _ => (AOther, [])
  | EAwait e1 => (AOther, snd (aeval line en e1))
  end.

(** The values bound by unpacking [v] into [n] names. *)
Definition unpack (v : aval) (n : nat) : list aval :=
  match v with
  | ABounds => map ACoord (firstn n bounds_axes)
                 ++ repeat AOther (n - List.length bounds_axes)
  | ASeq l => firstn n l ++ repeat AOther (n - List.length l)
  | _ => repeat AOther n
  end.

Definition import_binding (m : string) (p : string * option string)
  : string * aval :=
  (match snd p with Some n => n | None => fst p end, AMember m (fst p)).

(** One simple statement: the new environment and the events. *)
Definition astep (line : nat) (s : stmt) (en : env) : env * list event :=
  match s with
  | SImport m None => ((first_component m, AModule (first_component m)) :: en, [])
  | SImport m (Some n) => ((n, AModule m) :: en, [])
  | SFromImport m names => (map (import_binding m) names ++ en, [])
  | SAssign t v =>
      let '(vv, evs) := aeval line en v in
      match t with
      | EName x => ((x, vv) :: en, evs)
      | ETuple _ | EList _ =>
          let xs := target_binds t in
          (combine xs (unpack vv (List.length xs)) ++ en, evs)
      | ESubscript c i =>
          let '(cv, evc) := aeval line en c in
          let '(_, evi) := aeval line en i in
          (en, evs ++ evc ++ evi
               ++ match cv with AGeo o _ => [Mutate o] | _ => [] end)
      | _ => (en, evs)
      end
  | SExpr e => (en, snd (aeval line en e))
  | _ => (en, [])
  end.

(** The events of a script, each with the line it happens on. *)
Fixpoint trace_from (en : env) (p : list (nat * stmt)) : list (nat * event) :=
  match p with
  | [] => []
  | (line, s) :: rest =>
      let '(en', evs) := astep line s en in
      map (pair line) evs ++ trace_from en' rest
  end.

(** The environment after a script. *)
Fixpoint env_after (en : env) (p : list (nat * stmt)) : env :=
  match p with
  | [] => en
  | (line, s) :: rest => env_after (fst (astep line s en)) rest
  end.

Definition initial_env : env :=
  [("get_ipython", AMember "IPython" "get_ipython");
   ("type", AMember "builtins" "type");
   ("print", AMember "builtins" "print");
   ("str", AMember "builtins" "str")].

Definition trace (p : list (nat * stmt)) : list (nat * event) :=
  trace_from initial_env p.

End Flow.

(* ===================================================================== *)
(** ** Execution of a statement list *)
(* ===================================================================== *)

Module Exec.
Import Py.
Local Open Scope list_scope.

(** How a statement ends: normally, or with an exception; either way in
    the state the execution has reached. *)
Inductive result (state exn : Type) : Type :=
| Done (st : state)
| Raised (e : exn) (st : state).
Arguments Done {state exn} st.
Arguments Raised {state exn} e st.

Section Semantics.
Variables state exn : Type.

(** What one simple statement does: the interpreter and every library
    behind it.  The script fixes none of it. *)
Variable step : stmt -> state -> result state exn.
(** The truth value of a guard. *)
Variable truth : expr -> state -> bool.

(** Sequencing: continue from the state reached, or stop at the exception
    (or at the lack of fuel). *)
Definition and_then (r : option (result state exn))
           (k : state -> option (result state exn))
  : option (result state exn) :=
  match r with
  | Some (Done st') => k st'
  | Some (Raised e st') => Some (Raised e st')
  | None => None
  end.

(** Statements run one after the other; the first exception ends the list,
    unless a [try] around it handles it.  [None] is fuel running out, which
    only a loop can cause. *)
Fixpoint exec (fuel : nat) (p : list stmt) (st : state)
  : option (result state exn) :=
  match fuel with
  | O => None
  | S fuel' =>
      match p with
      | [] => Some (Done st)
      | s :: rest =>
          and_then
            match s with
            | STry body handler =>
                match exec fuel' body st with
                | Some (Raised _ st') => exec fuel' handler st'
                | r => r
                end
            | SIf c body orelse =>
                exec fuel' (if truth c st then body else orelse) st
            | SWhile c body =>
                if truth c st then exec fuel' (body ++ [SWhile c body]) st
                else Some (Done st)
            | _ => Some (step s st)
            end
            (exec fuel' rest)
      end
  end.

(** A list of simple statements needs no fuel: it is a fold of [step]. *)
Fixpoint run (p : list stmt) (st : state) : result state exn :=
  match p with
  | [] => Done st
  | s :: rest =>
      match step s st with
      | Done st' => run rest st'
      | Raised e st' => Raised e st'
      end
  end.

(** [step] instrumented with a log of the statements begun. *)
Definition logged (s : stmt) (ls : list stmt * state)
  : result (list stmt * state) exn :=
  match step s (snd ls) with
  | Done st' => Done (fst ls ++ [s], st')
  | Raised e st' => Raised e (fst ls ++ [s], st')
  end.

End Semantics.

Arguments exec {state exn} step truth fuel p st.
Arguments run {state exn} step p st.
Arguments logged {state exn} step s ls.

(** A library for experiments: the state counts the statements completed,
    and reading a file fails, as it does when the file is missing. *)
Definition reads_file (s : stmt) : bool :=
  existsb (is_call_of "gpd" "read_file") (stmt_calls s).

Definition missing_file (s : stmt) (done : nat) : result nat string :=
  if reads_file s then Raised "FileNotFoundError" done else Done (S done).

End Exec.

(* ===================================================================== *)
(** ** The data model of the libraries *)
(* ===================================================================== *)

Module Geo.
Local Open Scope list_scope.

(** Modelled from the spec: geopandas, pandas, shapely and pyproj are not
    part of the repository.  Section 3 gives their data model: "a tabular
    collection of rows, each with a geometry attribute (point, line, or
    polygon) and an associated reference system tag", with coordinates
    "ordered longitude-then-latitude".  A coordinate is the pair (x, y). *)
Definition point : Type := Q * Q.

(** Modelled from the spec: the geometry attribute of a row, "point, line,
    or polygon"; each has at least one coordinate. *)
Inductive geometry : Type :=
| Point (p : point)
| LineString (p : point) (ps : list point)
| Polygon (p : point) (ps : list point).

Definition coords (g : geometry) : list point :=
  match g with
  | Point p => [p]
  | LineString p ps | Polygon p ps => p :: ps
  end.

Definition map_geometry (f : point -> point) (g : geometry) : geometry :=
  match g with
  | Point p => Point (f p)
  | LineString p ps => LineString (f p) (map f ps)
  | Polygon p ps => Polygon (f p) (map f ps)
  end.

Inductive value : Type :=
| VStr (s : string)
| VNum (q : Q)
| VNull.

(** Modelled from the spec: a row of the table, its attribute values by
    column name and its geometry. *)
Record row : Type := {
  attributes : list (string * value);
  geom : geometry
}.

(** Modelled from the spec: the "tabular collection of rows" with its
    "associated reference system tag" (an EPSG code).  The frame that
    [gpd.GeoDataFrame()] builds has no reference system until [set_crs]
    gives it one (lines 417-460): its tag is [None]. *)
Record GeoDataFrame : Type := {
  columns : list string;
  rows : list row;
  crs : option Z
}.

(** *** The session *)

(** The variables of the session name objects; two names may share one. *)
Record memory : Type := {
  vars : list (string * nat);
  heap : list GeoDataFrame
}.

(** The files written: path, driver and content, latest first. *)
Definition filesystem : Type := list (string * (string * GeoDataFrame)).

(** What a statement of the notebook can reach: the objects in memory and
    the files on disk. *)
Record session : Type := {
  store : memory;
  disk : filesystem
}.

Fixpoint var_ref (vs : list (string * nat)) (x : string) : option nat :=
  match vs with
  | [] => None
  | (y, r) :: rest => if String.eqb x y then Some r else var_ref rest x
  end.

Definition deref (m : memory) (x : string) : option GeoDataFrame :=
  match var_ref (vars m) x with
  | Some r => nth_error (heap m) r
  | None => None
  end.

(** A new object, after those there are; its reference. *)
Definition alloc (f : GeoDataFrame) (m : memory) : memory * nat :=
  ({| vars := vars m; heap := heap m ++ [f] |}, List.length (heap m)).

(** [x = <the object r>]. *)
Definition bind (x : string) (r : nat) (m : memory) : memory :=
  {| vars := (x, r) :: vars m; heap := heap m |}.

(** [x = <new object f>]. *)
Definition bind_new (x : string) (f : GeoDataFrame) (m : memory) : memory :=
  let '(m1, r) := alloc f m in bind x r m1.

(** *** Row slices and file output (lines 400-407) *)

(** Modelled from the spec: the slice [frame[lo:hi]] of geopandas, absent
    from the repository; line 403 of the script calls [data[0:20]] "Select
    first 20 rows".  It is Python's slice of the row sequence, for bounds
    that are not negative. *)
Definition getitem_slice (f : GeoDataFrame) (lo hi : nat) : GeoDataFrame :=
  {| columns := columns f;
     rows := firstn (hi - lo) (skipn lo (rows f));
     crs := crs f |}.

(** Modelled from the spec: [to_file] of geopandas, absent from the
    repository; section 6 has it produce an output file from a frame
    ("output file formats (GeoJSON, Shapefile) produced via a library
    call"), and line 406 says what it does: "Write those rows into a new
    file".  It is a method of the object [r], with the session at hand: it
    reads the object and adds the file.  [None] is the error of a reference
    to no object. *)
Definition to_file (r : nat) (path driver : string) (s : session)
  : option session :=
  match nth_error (heap (store s)) r with
  | Some f => Some {| store := store s; disk := (path, (driver, f)) :: disk s |}
  | None => None
  end.

(** Line 404, [selection = data[0:20]]; [None] is the NameError of an
    unbound [data]. *)
Definition select_rows (s : session) : option session :=
  match deref (store s) "data" with
  | Some data =>
      Some {| store := bind_new "selection" (getitem_slice data 0 20) (store s);
              disk := disk s |}
  | None => None
  end.

(** Lines 401 and 407,
    [selection.to_file("output_data/data_selection.json", driver='GeoJSON')];
    [None] is the NameError of an unbound [selection]. *)
Definition write_selection (s : session) : option session :=
  match var_ref (vars (store s)) "selection" with
  | Some r => to_file r "output_data/data_selection.json" "GeoJSON" s
  | None => None
  end.

(** *** Reprojection (line 143) *)

(** Point, line or polygon. *)
Inductive kind : Type := IsPoint | IsLineString | IsPolygon.

Definition kind_of (g : geometry) : kind :=
  match g with
  | Point _ => IsPoint
  | LineString _ _ => IsLineString
  | Polygon _ _ => IsPolygon
  end.

Section Reprojection.
(** The coordinate transform between two reference systems (pyproj). *)
Variable transform : Z -> Z -> point -> point.

Definition reproject_row (source target : Z) (r : row) : row :=
  {| attributes := attributes r;
     geom := map_geometry (transform source target) (geom r) |}.

(** Modelled from the spec: [to_crs] of geopandas, absent from the
    repository; the spec's "reference system transform", from the
    reference system of the frame to the target, applied to the coordinates
    of every geometry, with the new reference system tag.  A frame without
    a reference system has nothing to transform from: [None] is the error
    raised then (line 454: "it is necessary to set the coordinate reference
    system", which line 460 does before line 479 reprojects). *)
Definition to_crs (target : Z) (f : GeoDataFrame) : option GeoDataFrame :=
  match crs f with
  | Some source =>
      Some {| columns := columns f;
              rows := map (reproject_row source target) (rows f);
              crs := Some target |}
  | None => None
  end.

(** Line 143, [data_in_3857 = data.to_crs('epsg:3857')]: the result is a
    new object, bound to a new name.  [None] is the NameError of an unbound
    [data] or the error of [to_crs]. *)
Definition reproject_data (s : session) : option session :=
  match deref (store s) "data" with
  | Some data =>
      match to_crs 3857 data with
      | Some g => Some {| store := bind_new "data_in_3857" g (store s);
                          disk := disk s |}
      | None => None
      end
  | None => None
  end.
End Reprojection.

(** The claim that [to_crs('epsg:3857')] gives a frame whatever frame it
    is called on. *)
Definition reprojects_every_frame : Prop :=
  forall (transform : Z -> Z -> point -> point) (f : GeoDataFrame),
  exists g, to_crs transform 3857 f = Some g.

(** *** Bounds (line 264) *)

(** The array [minx, miny, maxx, maxy]. *)
Record bounds : Type := {
  minx : Q; miny : Q; maxx : Q; maxy : Q
}.

Definition extend (b : bounds) (p : point) : bounds :=
  {| minx := Qmin (minx b) (fst p); miny := Qmin (miny b) (snd p);
     maxx := Qmax (maxx b) (fst p); maxy := Qmax (maxy b) (snd p) |}.

Definition all_coords (f : GeoDataFrame) : list point :=
  flat_map (fun r => coords (geom r)) (rows f).

(** Modelled from the spec: [total_bounds] of geopandas, absent from the
    repository: the least and greatest x and y over the coordinates of all
    geometries of the frame; undefined for a frame without rows. *)
Definition total_bounds (f : GeoDataFrame) : option bounds :=
  match all_coords f with
  | [] => None
  | p :: ps =>
      Some (fold_left extend ps
              {| minx := fst p; miny := snd p; maxx := fst p; maxy := snd p |})
  end.

(** Line 264, [w,s,e,n = data.total_bounds]: the four components in the
    order of the array. *)
Definition unpack_bounds (b : bounds) : Q * Q * Q * Q :=
  (minx b, miny b, maxx b, maxy b).

(** *** Areas (lines 136-144) *)

Inductive units : Type := Degrees | Metres.

(** The two reference systems of lines 107-124: WGS 84 (EPSG 4326, "units:
    degrees") and Web Mercator (EPSG 3857, "units: meters"). *)
Definition crs_units (code : Z) : option units :=
  if (code =? 4326)%Z then Some Degrees
  else if (code =? 3857)%Z then Some Metres
  else None.

(** Modelled from the spec: the check [area] of geopandas makes, absent
    from the repository; line 136: "area will warn you if you're trying to
    do area calculations in geographic CRS".  [None]: a reference system
    the script says nothing about. *)
Definition area_warns (code : Z) : option bool :=
  match crs_units code with
  | Some Degrees => Some true
  | Some Metres => Some false
  | None => None
  end.

(** Modelled from the spec: how geopandas picks the format of a vector
    file, absent from the repository: the [driver] argument when given,
    else the extension of the path. *)
Definition extension (path : string) : string := Py.last_component path.

Definition vector_format (path : string) (driver : option string)
  : option string :=
  match driver with
  | Some d => Some d
  | None =>
      if String.eqb (extension path) "shp" then Some "ESRI Shapefile"
      else if String.eqb (extension path) "geojson" then Some "GeoJSON"
      else None
  end.

End Geo.

(* ===================================================================== *)
(** ** What the properties speak about *)
(* ===================================================================== *)

Module Props.
Import Py Flow.
Local Open Scope list_scope.

Definition option_eqb {A} (eqb : A -> A -> bool) (a b : option A) : bool :=
  match a, b with
  | Some x, Some y => eqb x y
  | None, None => true
  | _, _ => false
  end.

Definition origin_eqb (a b : origin) : bool :=
  match a, b with
  | FromFile l p, FromFile l' p' =>
      Nat.eqb l l' && option_eqb String.eqb p p'
  | InMemory l, InMemory l' => Nat.eqb l l'
  | _, _ => false
  end.

Definition axis_eqb (a b : axis) : bool :=
  match a, b with X, X | Y, Y => true | _, _ => false end.

(** *** Selections of the trace *)

Definition pick {A} (f : event -> option A) (T : list (nat * event))
  : list (nat * A) :=
  flat_map (fun le => match f (snd le) with
                      | Some a => [(fst le, a)]
                      | None => []
                      end) T.

Definition loads : list (nat * event) -> list (nat * (option string * option string)) :=
  pick (fun ev => match ev with Load p d => Some (p, d) | _ => None end).

Definition exports : list (nat * event) -> list (nat * (option string * option string)) :=
  pick (fun ev => match ev with Export _ p d => Some (p, d) | _ => None end).

Definition export_origins : list (nat * event) -> list (nat * origin) :=
  pick (fun ev => match ev with Export o _ _ => Some o | _ => None end).

Definition renders : list (nat * event) -> list (nat * (string * origin)) :=
  pick (fun ev => match ev with Render how o _ => Some (how, o) | _ => None end).

Definition reprojections
  : list (nat * event) -> list (nat * (origin * crs_tag * crs_tag)) :=
  pick (fun ev => match ev with
                  | Reproject o c t => Some (o, c, t)
                  | _ => None
                  end).

Definition basemaps : list (nat * event) -> list (nat * aval) :=
  pick (fun ev => match ev with Basemap v => Some v | _ => None end).

Definition area_sites : list (nat * event) -> list (nat * crs_tag) :=
  pick (fun ev => match ev with Area _ c => Some c | _ => None end).

Definition shells : list (nat * event) -> list (nat * string) :=
  pick (fun ev => match ev with Shell cmd => Some cmd | _ => None end).

Definition calls : list (nat * event) -> list (nat * (option string * string)) :=
  pick (fun ev => match ev with Call l f => Some (l, f) | _ => None end).

Definition coord_uses
  : list (nat * event) -> list (nat * (string * list axis * list aval)) :=
  pick (fun ev => match ev with
                  | Coords c ex g => Some (c, ex, g)
                  | _ => None
                  end).

Definition axis_labels : list (nat * event) -> list (nat * (axis * aval)) :=
  pick (fun ev => match ev with AxisLabel a t => Some (a, t) | _ => None end).

(** *** Order of production and use *)

(** The frame an event works on. *)
Definition uses (ev : event) : option origin :=
  match ev with
  | Inspect o _ | Mutate o | SetCrs o _ | Reproject o _ _ | Area o _
  | Render _ o _ | Export o _ _ => Some o
  | _ => None
  end.

Definition produces (line : nat) (ev : event) : option origin :=
  match ev with
  | Load p _ => Some (FromFile line p)
  | Create => Some (InMemory line)
  | _ => None
  end.

(** The frames and geometries produced, with the line that produces
    them. *)
Definition productions (T : list (nat * event)) : list origin :=
  flat_map (fun le => match produces (fst le) (snd le) with
                      | Some o => [o]
                      | None => []
                      end) T.

(** Every frame an event works on was produced by an earlier event. *)
Fixpoint produced_before_use (produced : list origin)
         (T : list (nat * event)) : bool :=
  match T with
  | [] => true
  | (line, ev) :: rest =>
      match uses ev with
      | Some o => existsb (origin_eqb o) produced
      | None => true
      end
      && produced_before_use
           (match produces line ev with
            | Some o => o :: produced
            | None => produced
            end) rest
  end.

Definition is_loaded (o : origin) : bool :=
  match o with FromFile _ _ => true | InMemory _ => false end.

(** The reading of "every rendering call operates on already-loaded data"
    in which loading is [gpd.read_file]. *)
Definition renders_only_loaded (T : list (nat * event)) : Prop :=
  forall line how o c, In (line, Render how o c) T -> is_loaded o = true.

(** Every event on a frame comes after the first load. *)
Definition after_first_load (T : list (nat * event)) : bool :=
  match loads T with
  | [] => false
  | (first, _) :: _ =>
      forallb (fun le => match uses (snd le) with
                         | Some _ => Nat.ltb first (fst le)
                         | None => true
                         end) T
  end.

(** *** Syntax counts *)

Definition all_subexprs (p : list stmt) : list expr :=
  flat_map stmt_subexprs p.

(** Calls written in the script under the name [f]. *)
Definition calls_named (f : string) (p : list stmt) : list expr :=
  filter (fun e => match e with
                   | ECall g _ _ => String.eqb (callee_name g) f
                   | _ => false
                   end) (all_subexprs p).

Definition keyword_names (e : expr) : list string :=
  match e with ECall _ _ kws => map fst kws | _ => [] end.

(** Statements in which the attribute [a] is read. *)
Definition reading_attr (a : string) (p : list (nat * stmt))
  : list (nat * stmt) :=
  filter (fun ls => existsb (fun e => match e with
                                      | EAttr _ a' => String.eqb a a'
                                      | _ => false
                                      end) (stmt_subexprs (snd ls))) p.

Definition stmts_at (line : nat) (p : list (nat * stmt)) : list stmt :=
  map snd (filter (fun ls => Nat.eqb (fst ls) line) p).

Definition imports (p : list stmt) : list string :=
  flat_map (fun s => match s with
                     | SImport m _ | SFromImport m _ => [m]
                     | _ => []
                     end) p.

(** Operators and constructs that compute in the script itself: binary
    operators, lambdas, awaits, and a minus sign on anything but a numeric
    literal. *)
Definition computes (e : expr) : bool :=
  match e with
  | EBinOp _ _ _ | ELambda _ _ | EAwait _ => true
  | ENeg (EInt _) | ENeg (EFloat _) => false
  | ENeg _ => true
  | _ => false
  end.

(** *** Calls, statement by statement *)

Fixpoint per_statement (en : env) (p : list (nat * stmt))
  : list (nat * list (option string * string)) :=
  match p with
  | [] => []
  | (line, s) :: rest =>
      let '(en', evs) := astep line s en in
      (line, map snd (calls (map (pair line) evs))) :: per_statement en' rest
  end.

(** The libraries that deal with geographic data, among those imported
    (lines 14-18, 32, 305). *)
Definition geospatial : list string :=
  ["geopandas"; "contextily"; "shapely"; "fiona"; "folium"; "xyzservices"].

Definition geospatial_call (c : option string * string) : bool :=
  match fst c with
  | Some l => mem l geospatial
  | None => false
  end.

(** "No statement performs computation other than one geospatial-library
    invocation": at most one call, and that one into a geospatial library. *)
Definition one_geospatial_call (cs : list (option string * string)) : bool :=
  match cs with
  | [] => true
  | [c] => geospatial_call c
  | _ => false
  end.

Definition only_geospatial_calls (p : list (nat * stmt)) : Prop :=
  Forall (fun lc => one_geospatial_call (snd lc) = true)
         (per_statement initial_env p).

Fixpoint bump {A} (eqb : A -> A -> bool) (x : A) (acc : list (A * nat))
  : list (A * nat) :=
  match acc with
  | [] => [(x, 1)]
  | (y, n) :: rest =>
      if eqb x y then (y, S n) :: rest else (y, n) :: bump eqb x rest
  end.

(** How often each element occurs, in order of first occurrence. *)
Definition count_by {A} (eqb : A -> A -> bool) (l : list A) : list (A * nat) :=
  fold_left (fun acc x => bump eqb x acc) l [].

(** *** Processes *)

(** "The script creates no processes": no shell command is run. *)
Definition creates_no_process (T : list (nat * event)) : Prop :=
  forall line cmd, ~ In (line, Shell cmd) T.

(** *** Reference systems of the frames whose area is taken *)

Definition resolve (file_crs : string -> Z) (c : crs_tag) : option Z :=
  match c with
  | CrsOfFile (Some p) => Some (file_crs p)
  | CrsEPSG n => Some n
  | _ => None
  end.

(** For each read of [.area]: does it warn? *)
Definition area_warnings (file_crs : string -> Z) (T : list (nat * event))
  : list (nat * option bool) :=
  map (fun lc => (fst lc,
                  match resolve file_crs (snd lc) with
                  | Some code => Geo.area_warns code
                  | None => None
                  end)) (area_sites T).

(** *** Files *)

Definition flood_shp : string :=
  "philippines_flood_risk/phl_ica_floodrisk_geonode_mar2014.shp".
Definition health_geojson : string := "philippines_healthsites.geojson".
Definition selection_json : string := "output_data/data_selection.json".
Definition campus_shp : string := "output_data/MIT_campus.shp".

Definition format_of (pd : nat * (option string * option string))
  : option string :=
  match fst (snd pd) with
  | Some path => Geo.vector_format path (snd (snd pd))
  | None => None
  end.

(** *** Bounds *)

(** [b] contains the coordinate [p]. *)
Definition covers (b : Geo.bounds) (p : Geo.point) : Prop :=
  (Geo.minx b <= fst p /\ fst p <= Geo.maxx b /\
   Geo.miny b <= snd p /\ snd p <= Geo.maxy b)%Q.

(** Each component of [b] is the x or the y of a coordinate satisfying
    [P]. *)
Definition attained (P : Geo.point -> Prop) (b : Geo.bounds) : Prop :=
  (exists p, P p /\ fst p = Geo.minx b) /\
  (exists p, P p /\ snd p = Geo.miny b) /\
  (exists p, P p /\ fst p = Geo.maxx b) /\
  (exists p, P p /\ snd p = Geo.maxy b).

(** *** The events of the script, computed once *)

Definition script_trace : list (nat * event) :=
  Eval vm_compute in trace Notebook.script.

(** *** Sample data *)

Definition sample_row (name : string) (x y : Q) : Geo.row :=
  {| Geo.attributes := [("name", Geo.VStr name)];
     Geo.geom := Geo.Point (x, y) |}.

(** A frame of three rows in WGS 84. *)
Definition sample_frame : Geo.GeoDataFrame :=
  {| Geo.columns := ["name"; "geometry"];
     Geo.rows := [sample_row "a" 121 14; sample_row "b" 125 7;
                  sample_row "c" 120 16];
     Geo.crs := Some 4326%Z |}.

(** A frame of twenty-five rows in WGS 84, row [i] at longitude [100 + i]. *)
Definition long_frame : Geo.GeoDataFrame :=
  {| Geo.columns := ["name"; "geometry"];
     Geo.rows := map (fun i => sample_row "site"
                                 (inject_Z (100 + Z.of_nat i)) 10)
                     (seq 0 25);
     Geo.crs := Some 4326%Z |}.

(** A session in which [data] names the frame [f]; nothing written yet. *)
Definition session_with (f : Geo.GeoDataFrame) : Geo.session :=
  {| Geo.store := {| Geo.vars := [("data", 0)]; Geo.heap := [f] |};
     Geo.disk := [] |}.

(** A stand-in for the projection: any function of the coordinates. *)
Definition sample_transform (from to : Z) (p : Geo.point) : Geo.point :=
  (fst p * 111319, snd p * 111319)%Q.

(** Line 433, [poly = Polygon(coordinates)]: the polygon through the
    coordinate tuples, in their order. *)
Definition polygon (ps : list Geo.point) : list Geo.geometry :=
  match ps with
  | p :: rest => [Geo.Polygon p rest]
  | [] => []
  end.

(** The frame [newdata] as lines 417-450 leave it: the polygon and its
    location in one row, and no reference system yet. *)
Definition campus_frame : Geo.GeoDataFrame :=
  {| Geo.columns := ["geometry"; "location"];
     Geo.rows :=
       map (fun g => {| Geo.attributes :=
                          [("location", Geo.VStr "MIT main campus")];
                        Geo.geom := g |})
           (polygon Notebook.coordinates);
     Geo.crs := None |}.

End Props.

(* ===================================================================== *)
(** ** Further readings of the script *)
(* ===================================================================== *)

Module Uses.
Import Py Flow Props.
Local Open Scope list_scope.

(** *** Receivers *)

(** Each statement with the environment it runs in. *)
Fixpoint with_env (en : env) (p : list (nat * stmt))
  : list (nat * stmt * env) :=
  match p with
  | [] => []
  | (line, s) :: rest =>
      (line, s, en) :: with_env (fst (astep line s en)) rest
  end.

Definition receiver_of (m : string) (e : expr) : option expr :=
  match e with
  | ECall (EAttr r m') _ _ => if String.eqb m m' then Some r else None
  | _ => None
  end.

Definition attr_receiver_of (a : string) (e : expr) : option expr :=
  match e with
  | EAttr r a' => if String.eqb a a' then Some r else None
  | _ => None
  end.

(** The values on which something is done, with the line: [sel] picks the
    receiver out of an expression. *)
Definition receivers_by (sel : expr -> option expr) (p : list (nat * stmt))
  : list (nat * aval) :=
  flat_map
    (fun lse =>
       flat_map (fun e => match sel e with
                          | Some r => [(fst (fst lse),
                                        fst (aeval (fst (fst lse)) (snd lse) r))]
                          | None => []
                          end)
                (stmt_subexprs (snd (fst lse))))
    (with_env initial_env p).

(** The values the method [m] is called on. *)
Definition receivers (m : string) : list (nat * stmt) -> list (nat * aval) :=
  receivers_by (receiver_of m).

(** The values the attribute [a] is read from. *)
Definition attr_receivers (a : string)
  : list (nat * stmt) -> list (nat * aval) :=
  receivers_by (attr_receiver_of a).

Definition crs_of (v : aval) : crs_tag :=
  match v with AGeo _ c => c | _ => CrsUnknown end.

Definition crs_tags (l : list (nat * aval)) : list (nat * crs_tag) :=
  map (fun r => (fst r, crs_of (snd r))) l.

Definition crs_tag_eqb (a b : crs_tag) : bool :=
  match a, b with
  | CrsOfFile p, CrsOfFile q => option_eqb String.eqb p q
  | CrsEPSG m, CrsEPSG n => Z.eqb m n
  | CrsUnset, CrsUnset => true
  | _, _ => false
  end.

(** The frame carries a reference system: the one of its file or one the
    script has set. *)
Definition has_crs (c : crs_tag) : bool :=
  match c with
  | CrsOfFile _ | CrsEPSG _ => true
  | CrsUnset | CrsUnknown => false
  end.

(** *** Basemaps *)

Definition plot_receiver (e : expr) : option expr := receiver_of "plot" e.

(** The reference system [ctx.add_basemap] takes the axes to be in: the
    [crs] argument, which the script always writes as [frame.crs]; without
    it, Web Mercator (line 220: "It assumes the data is in web mercator
    (epsg:3857) unless you specify otherwise"). *)
Definition declared_crs (line : nat) (en : env) (call : expr) : crs_tag :=
  match kwarg "crs" call with
  | None => CrsEPSG 3857
  | Some (EAttr f "crs") => crs_of (fst (aeval line en f))
  | Some _ => CrsUnknown
  end.

Definition basemap_calls (line : nat) (en : env)
           (axes : list (string * crs_tag)) (s : stmt)
  : list (nat * (crs_tag * crs_tag)) :=
  flat_map (fun c => if is_call_of "ctx" "add_basemap" c then
                       match posarg 0 c with
                       | Some (EName x) =>
                           [(line, (match assoc x axes with
                                    | Some t => t
                                    | None => CrsUnknown
                                    end,
                                    declared_crs line en c))]
                       | _ => [(line, (CrsUnknown, declared_crs line en c))]
                       end
                     else [])
           (stmt_calls s).

(** For every [ctx.add_basemap]: the reference system of the frame that
    was plotted on the axes it gets, and the one the call takes them to be
    in.  [axes] maps a variable to the reference system of the frame whose
    [plot] call it was last assigned from. *)
Fixpoint basemap_crs (en : env) (axes : list (string * crs_tag))
         (p : list (nat * stmt)) : list (nat * (crs_tag * crs_tag)) :=
  match p with
  | [] => []
  | (line, s) :: rest =>
      basemap_calls line en axes s
      ++ basemap_crs (fst (astep line s en))
           (match s with
            | SAssign (EName x) v =>
                match plot_receiver v with
                | Some r => (x, crs_of (fst (aeval line en r))) :: axes
                | None => (x, CrsUnknown) :: axes
                end
            | _ => axes
            end) rest
  end.

(** *** Paths and shell commands *)

Fixpoint split_on (c : ascii) (acc : string) (s : string) : list string :=
  match s with
  | EmptyString => [acc]
  | String d rest =>
      if Ascii.eqb c d then acc :: split_on c EmptyString rest
      else split_on c (acc ++ String d EmptyString)%string rest
  end.

Definition nonempty (s : string) : bool :=
  match s with EmptyString => false | _ => true end.

(** The words of a shell command. *)
Definition words (cmd : string) : list string :=
  filter nonempty (split_on " "%char EmptyString cmd).

(** The directories on the way to a file: [["a"; "b"]] for [a/b/c.txt]. *)
Definition directories (path : string) : list string :=
  removelast (split_on "/"%char EmptyString path).

Definition basename (path : string) : string :=
  last (split_on "/"%char EmptyString path) EmptyString.

(** The name without its last extension: [c] for [c.txt]. *)
Definition stem (file : string) : string :=
  String.concat "." (removelast (split_on "."%char EmptyString file)).

Definition is_option (w : string) : bool := String.prefix "-" w.

(** The directories a shell command of the script leaves in place (lines
    43 and 389): [unzip ARCHIVE -d DIR] extracts into [DIR], [mkdir DIR -p]
    makes [DIR], and does not fail when it is there already. *)
Definition makes_directories (cmd : string) : list string :=
  match words cmd with
  | "unzip" :: _ :: "-d" :: dir :: _ => [dir]
  | "mkdir" :: rest => filter (fun w => negb (is_option w)) rest
  | _ => []
  end.

(** The archive a shell command reads. *)
Definition reads_archive (cmd : string) : list string :=
  match words cmd with
  | "unzip" :: archive :: _ => [archive]
  | _ => []
  end.

(** The path a call gives as its first argument, with the constants of the
    environment. *)
Definition path_arg (line : nat) (en : env) (call : expr) : option string :=
  match posarg 0 call with
  | Some e => str_of (fst (aeval line en e))
  | None => None
  end.

(** What a statement does to files: the paths it reads, the paths it
    writes, the directories it makes. *)
Record file_use : Type := {
  at_line : nat;
  read_paths : list string;
  written_paths : list string;
  made_directories : list string
}.

Definition opt_list {A} (o : option A) : list A :=
  match o with Some a => [a] | None => [] end.

Definition calls_to (f : string) (s : stmt) : list expr :=
  filter (fun e => match e with
                   | ECall g _ _ => String.eqb (callee_name g) f
                   | _ => false
                   end) (stmt_calls s).

Definition file_use_of (lse : nat * stmt * env) : file_use :=
  let line := fst (fst lse) in
  let s := snd (fst lse) in
  let en := snd lse in
  let paths f := flat_map (fun c => opt_list (path_arg line en c))
                          (calls_to f s) in
  let cmds := paths "system" in
  {| at_line := line;
     read_paths := paths "read_file" ++ flat_map reads_archive cmds;
     written_paths := paths "to_file" ++ paths "savefig";
     made_directories := flat_map makes_directories cmds |}.

Definition has_items {A} (l : list A) : bool :=
  match l with [] => false | _ => true end.

(** The statements that touch files. *)
Definition file_uses (p : list (nat * stmt)) : list file_use :=
  filter (fun u => has_items (read_paths u ++ written_paths u
                                ++ made_directories u))
         (map file_use_of (with_env initial_env p)).

(** Every directory on the way to a file read or written was made by an
    earlier statement. *)
Fixpoint directories_made_first (made : list string) (us : list file_use)
  : bool :=
  match us with
  | [] => true
  | u :: rest =>
      forallb (fun path => forallb (fun d => mem d made) (directories path))
              (read_paths u ++ written_paths u)
      && directories_made_first (made_directories u ++ made) rest
  end.

Fixpoint distinct (l : list string) : bool :=
  match l with
  | [] => true
  | x :: rest => negb (mem x rest) && distinct rest
  end.

(** *** Interactive maps *)

(** A folium map: the line that made it, its layers (line and name) in the
    order they were added, and the line of its layer control. *)
Record folium_map : Type := {
  made_at : nat;
  layers : list (nat * option string);
  control : option nat
}.

(** The maps of the session, and the variables that name them.  Two
    names, or a name and an argument, may stand for the same map. *)
Record maps : Type := {
  map_vars : list (string * nat);
  map_heap : list folium_map
}.

Fixpoint update_nth {A} (i : nat) (f : A -> A) (l : list A) : list A :=
  match l, i with
  | [], _ => []
  | x :: rest, O => f x :: rest
  | x :: rest, S j => x :: update_nth j f rest
  end.

Definition add_layer (line : nat) (name : option string) (m : folium_map)
  : folium_map :=
  {| made_at := made_at m; layers := layers m ++ [(line, name)];
     control := control m |}.

Definition add_control (line : nat) (m : folium_map) : folium_map :=
  {| made_at := made_at m; layers := layers m; control := Some line |}.

Definition is_frame (v : aval) : bool :=
  match v with AGeo _ _ => true | _ => false end.

Definition layer_name (call : expr) : option string :=
  match kwarg "name" call with
  | Some (EStr n) => Some n
  | _ => None
  end.

(** The map an expression evaluates to, and the maps after it (lines
    286-384).  [frame.explore(...)] makes a map with one layer;
    [frame.explore(m=x, ...)] adds its layer to the map [x] names and
    gives that same map back (line 315: "You can plot multiple layers of
    data onto the same map by passing the folium object into the m=
    keyword argument"); [folium.Map(...)] makes a map without layers;
    [folium.LayerControl().add_to(x)] adds the control to the map [x]
    names. *)
Definition map_eval (line : nat) (en : env) (ms : maps) (e : expr)
  : option nat * maps :=
  match e with
  | EName x => (assoc x (map_vars ms), ms)
  | ECall (EAttr r "explore") _ _ =>
      if is_frame (fst (aeval line en r)) then
        match kwarg "m" e with
        | Some (EName x) =>
            match assoc x (map_vars ms) with
            | Some i =>
                (Some i,
                 {| map_vars := map_vars ms;
                    map_heap := update_nth i (add_layer line (layer_name e))
                                  (map_heap ms) |})
            | None => (None, ms)
            end
        | Some _ => (None, ms)
        | None =>
            (Some (List.length (map_heap ms)),
             {| map_vars := map_vars ms;
                map_heap := map_heap ms
                            ++ [{| made_at := line;
                                   layers := [(line, layer_name e)];
                                   control := None |}] |})
        end
      else (None, ms)
  | ECall (EAttr (EName "folium") "Map") _ _ =>
      (Some (List.length (map_heap ms)),
       {| map_vars := map_vars ms;
          map_heap := map_heap ms
                      ++ [{| made_at := line; layers := [];
                             control := None |}] |})
  | ECall (EAttr (ECall (EAttr (EName "folium") "LayerControl") _ _) "add_to")
          [EName x] _ =>
      match assoc x (map_vars ms) with
      | Some i =>
          (None,
           {| map_vars := map_vars ms;
              map_heap := update_nth i (add_control line) (map_heap ms) |})
      | None => (None, ms)
      end
  | _ => (None, ms)
  end.

Fixpoint unbind (x : string) (vs : list (string * nat))
  : list (string * nat) :=
  match vs with
  | [] => []
  | (y, i) :: rest =>
      if String.eqb x y then unbind x rest else (y, i) :: unbind x rest
  end.

Definition map_step (lse : nat * stmt * env) (ms : maps) : maps :=
  let line := fst (fst lse) in
  let en := snd lse in
  match snd (fst lse) with
  | SAssign (EName x) v =>
      let '(r, ms') := map_eval line en ms v in
      {| map_vars := match r with
                     | Some i => (x, i) :: unbind x (map_vars ms')
                     | None => unbind x (map_vars ms')
                     end;
         map_heap := map_heap ms' |}
  | SExpr e => snd (map_eval line en ms e)
  | _ => ms
  end.

Definition maps_after (p : list (nat * stmt)) : maps :=
  fold_left (fun ms lse => map_step lse ms) (with_env initial_env p)
            {| map_vars := []; map_heap := [] |}.

(** No layer was added to the map after its control, and every layer
    the control lists has a name. *)
Definition control_covers_layers (m : folium_map) : bool :=
  match control m with
  | None => true
  | Some c =>
      forallb (fun l => Nat.ltb (fst l) c
                        && match snd l with Some _ => true | None => false end)
              (layers m)
  end.

(** The calls of [explore] that name a map to draw on, and whether the
    name stood for a map at that point. *)
Fixpoint explore_targets (ms : maps) (p : list (nat * stmt * env))
  : list (nat * option nat) :=
  match p with
  | [] => []
  | lse :: rest =>
      flat_map (fun c => match receiver_of "explore" c, kwarg "m" c with
                         | Some _, Some (EName x) =>
                             [(fst (fst lse), assoc x (map_vars ms))]
                         | _, _ => []
                         end)
               (stmt_calls (snd (fst lse)))
      ++ explore_targets (map_step lse ms) rest
  end.

(** *** Bounds and the reference system they are in *)

(** The reference system of the frame whose [total_bounds] a name, or a
    component of a name, stands for. *)
Definition bounds_tag (bs : list (string * crs_tag)) (e : expr) : crs_tag :=
  match e with
  | EName x | ESubscript (EName x) _ =>
      match assoc x bs with Some t => t | None => CrsUnknown end
  | _ => CrsUnknown
  end.

(** A call that takes bounds: where they come from, and the [ll] flag when
    the call has one (line 273: "ll means coordinates are in lat-lon"). *)
Record bounds_use : Type := {
  use_line : nat;
  consumer : string;
  sources : list crs_tag;
  lonlat : option bool
}.

Definition bool_kwarg (k : string) (call : expr) : option bool :=
  match kwarg k call with Some (EBool b) => Some b | _ => None end.

Definition list_kwarg (k : string) (call : expr) : list expr :=
  match kwarg k call with Some (EList es) => es | _ => [] end.

Definition call_args (call : expr) : list expr :=
  match call with ECall _ args _ => args | _ => [] end.

Definition bounds_uses_of (line : nat) (bs : list (string * crs_tag))
           (s : stmt) : list bounds_use :=
  flat_map
    (fun c =>
       if is_call_of "ctx" "bounds2img" c then
         [{| use_line := line; consumer := "bounds2img";
             sources := map (bounds_tag bs) (firstn 4 (call_args c));
             lonlat := bool_kwarg "ll" c |}]
       else
         match receiver_of "set" c with
         | Some _ =>
             [{| use_line := line; consumer := "set";
                 sources := map (bounds_tag bs)
                              (list_kwarg "xlim" c ++ list_kwarg "ylim" c);
                 lonlat := None |}]
         | None => []
         end)
    (stmt_calls s).

(** The calls that take bounds.  [bs] maps each name bound from a
    [total_bounds] to the reference system of the frame it was read
    from. *)
Fixpoint bounds_uses (en : env) (bs : list (string * crs_tag))
         (p : list (nat * stmt)) : list bounds_use :=
  match p with
  | [] => []
  | (line, s) :: rest =>
      bounds_uses_of line bs s
      ++ bounds_uses (fst (astep line s en))
           (match s with
            | SAssign t (EAttr r "total_bounds") =>
                map (fun x => (x, crs_of (fst (aeval line en r))))
                    (target_binds t) ++ bs
            | SAssign t _ =>
                map (fun x => (x, CrsUnknown)) (target_binds t) ++ bs
            | _ => bs
            end) rest
  end.

Definition units_of (file_crs : string -> Z) (c : crs_tag)
  : option Geo.units :=
  match resolve file_crs c with
  | Some code => Geo.crs_units code
  | None => None
  end.

(** The [ll] flag is set exactly when the bounds are in degrees. *)
Definition ll_agrees (file_crs : string -> Z) (u : bounds_use) : bool :=
  match lonlat u with
  | Some b =>
      forallb (fun t => match units_of file_crs t with
                        | Some Geo.Degrees => b
                        | Some Geo.Metres => negb b
                        | None => false
                        end) (sources u)
  | None => true
  end.

(** The lines that bind the name [x]. *)
Definition binders (x : string) (p : list (nat * stmt)) : list nat :=
  map fst (filter (fun ls => mem x (stmt_binds (snd ls))) p).

(** *** Timestamps *)

Definition name_of (e : expr) : option string :=
  match e with EName x => Some x | _ => None end.

(** The lines of [frame[col] = frame[col].astype(str)]. *)
Definition casts_to_str (col : string) (p : list (nat * stmt)) : list nat :=
  flat_map
    (fun ls => match snd ls with
               | SAssign (ESubscript t (EStr c))
                         (ECall (EAttr (ESubscript f (EStr c')) "astype")
                                [EName "str"] _) =>
                   if String.eqb c col && String.eqb c' col
                      && option_eqb String.eqb (name_of t) (name_of f)
                   then [fst ls] else []
               | _ => []
               end) p.

(** The columns an [explore] call on a frame read from [path] draws: the
    selection it is called on, or [None] for the whole frame. *)
Definition explored_columns (path : string) (p : list (nat * stmt))
  : list (nat * option (list string)) :=
  flat_map
    (fun lse =>
       flat_map
         (fun c => match receiver_of "explore" c with
                   | Some r =>
                       match fst (aeval (fst (fst lse)) (snd lse) r) with
                       | AGeo (FromFile _ (Some q)) _ =>
                           if String.eqb path q then
                             [(fst (fst lse),
                               match r with
                               | ESubscript _ (EList cols) =>
                                   Some (flat_map
                                           (fun e => match e with
                                                     | EStr n => [n]
                                                     | _ => []
                                                     end) cols)
                               | _ => None
                               end)]
                           else []
                       | _ => []
                       end
                   | None => []
                   end)
         (stmt_calls (snd (fst lse))))
    (with_env initial_env p).

(** An [explore] call is safe from the timestamp column [col] when it
    comes after the cast and draws a selection without [col] that keeps
    the geometry. *)
Definition avoids_timestamp (col : string) (cast : nat)
           (u : nat * option (list string)) : bool :=
  Nat.ltb cast (fst u)
  && match snd u with
     | Some cols => negb (mem col cols) && mem "geometry" cols
     | None => false
     end.

(** *** Changes in place *)

(** The frames changed in place, by item assignment. *)
Definition mutated : list (nat * event) -> list (nat * origin) :=
  pick (fun ev => match ev with Mutate o => Some o | _ => None end).

(** The keywords the calls of the script pass, each once. *)
Definition keywords_used (p : list stmt) : list string :=
  map fst (count_by String.eqb
             (flat_map keyword_names (filter is_call (all_subexprs p)))).

End Uses.

(* ===================================================================== *)
(** ** Coordinates and what they measure *)
(* ===================================================================== *)

Module Coordinates.
Import Py Flow Props Uses.
Local Open Scope list_scope.

(** *** Quantities *)

(** What a component of a coordinate measures. *)
Inductive quantity : Type := Longitude | Latitude | Easting | Northing.

(** Modelled from the spec: the convention of the libraries, which are not
    part of the repository; section 3: "coordinates are ordered
    longitude-then-latitude".  In a reference system whose units are
    degrees (WGS 84, lines 109-115) the x component of a coordinate is the
    longitude and the y component the latitude; in one whose units are
    metres (Web Mercator, lines 117-124) they are the distances east and
    north of the origin. *)
Definition measures (u : Geo.units) (a : axis) : quantity :=
  match u, a with
  | Geo.Degrees, X => Longitude
  | Geo.Degrees, Y => Latitude
  | Geo.Metres, X => Easting
  | Geo.Metres, Y => Northing
  end.

Definition quantity_eqb (p q : quantity) : bool :=
  match p, q with
  | Longitude, Longitude | Latitude, Latitude
  | Easting, Easting | Northing, Northing => true
  | _, _ => false
  end.

(** What the first component of the coordinates of a frame in the
    reference system [c] measures; [None] when the frame has none. *)
Definition first_component (file_crs : string -> Z) (c : crs_tag)
  : option quantity :=
  option_map (fun u => measures u X) (units_of file_crs c).

(** *** The geometries of the pipeline *)

(** Every frame, series or geometry that an expression of the script
    evaluates to: the line, where it comes from and the reference system
    it is in. *)
Definition geometry_values (p : list (nat * stmt))
  : list (nat * origin * crs_tag) :=
  flat_map
    (fun lse =>
       flat_map (fun e => match fst (aeval (fst (fst lse)) (snd lse) e) with
                          | AGeo o c => [(fst (fst lse), o, c)]
                          | _ => []
                          end)
                (stmt_subexprs (snd (fst lse))))
    (with_env initial_env p).

(** The claim that the first component of every geometry of the pipeline
    is the longitude; a geometry that has no reference system yet counts
    for it. *)
Definition longitude_first_everywhere (file_crs : string -> Z)
           (p : list (nat * stmt)) : Prop :=
  forall line o c, In (line, o, c) (geometry_values p) ->
    c = CrsUnset \/ first_component file_crs c = Some Longitude.

(** The reference systems the geometries are in, each with the number of
    values in it. *)
Definition systems (p : list (nat * stmt)) : list (crs_tag * nat) :=
  count_by crs_tag_eqb (map snd (geometry_values p)).

(** The lines that hold a geometry in the reference system [c], each
    once. *)
Definition lines_in (c : crs_tag) (p : list (nat * stmt)) : list nat :=
  map fst (count_by Nat.eqb
             (map (fun v => fst (fst v))
                  (filter (fun v => crs_tag_eqb (snd v) c)
                          (geometry_values p)))).

(** The origins of the geometries in the reference system [c], each
    once. *)
Definition origins_in (c : crs_tag) (p : list (nat * stmt)) : list origin :=
  map fst (count_by origin_eqb
             (map (fun v => snd (fst v))
                  (filter (fun v => crs_tag_eqb (snd v) c)
                          (geometry_values p)))).

(** *** Coordinates handed to a library *)

(** A value in a coordinate slot: a component taken on an axis from a
    geometry or from the bounds of a frame in some reference system, or a
    number written in the script. *)
Inductive component : Type :=
| Taken (a : axis) (c : crs_tag)
| Number (q : Q)
| Opaque.

(** The reference system of the frame a coordinate expression reads
    from: [geometry.x], or a name or component of [total_bounds]. *)
Definition source_tag (line : nat) (en : env) (bs : list (string * crs_tag))
           (e : expr) : crs_tag :=
  match e with
  | EAttr r _ => crs_of (fst (aeval line en r))
  | _ => bounds_tag bs e
  end.

Definition component_of (line : nat) (en : env) (bs : list (string * crs_tag))
           (e : expr) : component :=
  match fst (aeval line en e) with
  | ANum q => Number q
  | ACoord a => Taken a (source_tag line en bs e)
  | _ => Opaque
  end.

Definition component_of_value (v : aval) : component :=
  match v with
  | ANum q => Number q
  | _ => Opaque
  end.

Record coordinate_use : Type := {
  on_line : nat;
  by_call : string;
  expected : list axis;
  given : list component
}.

Definition elements (e : expr) : list expr :=
  match e with
  | EList es | ETuple es => es
  | _ => []
  end.

Definition kwarg_elements (k : string) (call : expr) : list expr :=
  match kwarg k call with Some e => elements e | None => [] end.

Definition has_kwarg (k : string) (call : expr) : bool :=
  match kwarg k call with Some _ => true | None => false end.

Definition is_method (m : string) (call : expr) : bool :=
  match receiver_of m call with Some _ => true | None => false end.

(** The slots of one call, with the order the library takes them in (see
    [Flow.call_method]): [ctx.bounds2img] west, south, east, north; the
    limits of the x axis and of the y axis; [folium.Map(location=...)]
    latitude then longitude; [Polygon] a list of (x, y) tuples. *)
Definition uses_of (line : nat) (en : env) (bs : list (string * crs_tag))
           (call : expr) : list coordinate_use :=
  let comp := component_of line en bs in
  let use name slots es :=
    {| on_line := line; by_call := name; expected := slots;
       given := map comp es |} in
  if is_call_of "ctx" "bounds2img" call then
    [use "bounds2img" bounds_axes (firstn 4 (call_args call))]
  else if is_call_of "folium" "Map" call then
    if has_kwarg "location" call
    then [use "folium.Map" [Y; X] (kwarg_elements "location" call)]
    else []
  else if is_method "set_xlim" call then
    [use "set_xlim" [X; X]
         (match call_args call with e :: _ => elements e | [] => [] end)]
  else if is_method "set_ylim" call then
    [use "set_ylim" [Y; Y]
         (match call_args call with e :: _ => elements e | [] => [] end)]
  else if is_method "set" call then
    (if has_kwarg "xlim" call
     then [use "set(xlim)" [X; X] (kwarg_elements "xlim" call)] else [])
    ++ (if has_kwarg "ylim" call
        then [use "set(ylim)" [Y; Y] (kwarg_elements "ylim" call)] else [])
  else
    match call with
    | ECall (EName "Polygon") (arg :: _) _ =>
        map (fun t => {| on_line := line; by_call := "Polygon";
                         expected := [X; Y];
                         given := map component_of_value (items_of t) |})
            (items_of (fst (aeval line en arg)))
    | _ => []
    end.

(** The coordinates the script hands to a library, in order.  [bs] maps
    each name bound from a [total_bounds] to the reference system of the
    frame it was read from. *)
Fixpoint coordinate_uses_from (en : env) (bs : list (string * crs_tag))
         (p : list (nat * stmt)) : list coordinate_use :=
  match p with
  | [] => []
  | (line, s) :: rest =>
      flat_map (uses_of line en bs) (stmt_calls s)
      ++ coordinate_uses_from (fst (astep line s en))
           (match s with
            | SAssign t (EAttr r "total_bounds") =>
                map (fun x => (x, crs_of (fst (aeval line en r))))
                    (target_binds t) ++ bs
            | SAssign t _ =>
                map (fun x => (x, CrsUnknown)) (target_binds t) ++ bs
            | _ => bs
            end) rest
  end.

Definition coordinate_uses (p : list (nat * stmt)) : list coordinate_use :=
  coordinate_uses_from initial_env [] p.

(** The same use with the sources left out, as the trace records it. *)
Definition forget (u : coordinate_use)
  : nat * (string * list axis * list aval) :=
  (on_line u,
   (by_call u, expected u,
    map (fun c => match c with
                  | Taken a _ => ACoord a
                  | Number q => ANum q
                  | Opaque => AOther
                  end) (given u))).

(** What a component taken from a frame measures, by the units of the
    reference system of the frame.  A number written in the script carries
    no units. *)
Definition reading (file_crs : string -> Z) (c : component)
  : option quantity :=
  match c with
  | Taken a t => option_map (fun u => measures u a) (units_of file_crs t)
  | Number _ | Opaque => None
  end.

(** The uses whose values are taken from frames, with what each value
    measures. *)
Definition measured (file_crs : string -> Z) (us : list coordinate_use)
  : list (nat * string * list (option quantity)) :=
  flat_map (fun u => match given u with
                     | Taken _ _ :: _ =>
                         [(on_line u, by_call u,
                           map (reading file_crs) (given u))]
                     | _ => []
                     end) us.

(** Every slot gets a component taken on the axis of the slot. *)
Fixpoint taken_in_order (slots : list axis) (cs : list component) : bool :=
  match slots, cs with
  | [], [] => true
  | a :: slots', Taken b _ :: cs' => axis_eqb a b && taken_in_order slots' cs'
  | _, _ => false
  end.

(** [p], read as (longitude, latitude), lies in the region. *)
Definition lon_lat_within (b : Geo.bounds) (p : Geo.point) : bool :=
  Qle_bool (Geo.minx b) (fst p) && Qle_bool (fst p) (Geo.maxx b)
  && Qle_bool (Geo.miny b) (snd p) && Qle_bool (snd p) (Geo.maxy b).

(** A tuple written in the script fills an (x, y) slot with a longitude
    and a latitude of the region it is said to be in. *)
Definition written_in_order (region : Geo.bounds) (u : coordinate_use)
  : bool :=
  match expected u, given u with
  | [X; Y], [Number x; Number y] => lon_lat_within region (x, y)
  | _, _ => false
  end.

(** A longitude lies in [-180, 180], a latitude in [-90, 90]. *)
Definition in_range (a : axis) (q : Q) : bool :=
  match a with
  | X => Qle_bool (-(180)) q && Qle_bool q 180
  | Y => Qle_bool (-(90)) q && Qle_bool q 90
  end.

(** The two limits of one axis, written in the script: the lower, then the
    upper, both angles that axis can show. *)
Definition limits_in_order (u : coordinate_use) : bool :=
  match expected u, given u with
  | [a; b], [Number lo; Number hi] =>
      axis_eqb a b && in_range a lo && in_range a hi && Qle_bool lo hi
  | _, _ => false
  end.

(** The use gives its values in the order its call takes them. *)
Definition ordered (region : Geo.bounds) (u : coordinate_use) : bool :=
  taken_in_order (expected u) (given u)
  || written_in_order region u
  || limits_in_order u.

(** A slot for a point that wants the latitude before the longitude. *)
Definition latitude_first (u : coordinate_use) : bool :=
  match expected u with Y :: X :: _ => true | _ => false end.

(** *** The place the written coordinates are in *)

(** Line 429: "Coordinates of the MIT main campus in Decimal Degrees".
    The campus is in Cambridge, Massachusetts, between 72 and 71 degrees
    west and between 42 and 43 degrees north. *)
Definition campus_region : Geo.bounds :=
  {| Geo.minx := -(72); Geo.miny := 42; Geo.maxx := -(71); Geo.maxy := 43 |}.

(** The tuple [p] in a [Polygon] slot, and with its components swapped. *)
Definition polygon_use (p : Geo.point) : coordinate_use :=
  {| on_line := 433; by_call := "Polygon"; expected := [X; Y];
     given := [Number (fst p); Number (snd p)] |}.

Definition swap (p : Geo.point) : Geo.point := (snd p, fst p).

End Coordinates.

(* ===================================================================== *)
(** ** Facts about execution *)
(* ===================================================================== *)

Module ExecFacts.
Import Py Exec.
Local Open Scope list_scope.

Section Semantics.
Variables state exn : Type.
Variable step : stmt -> state -> result state exn.
Variable truth : expr -> state -> bool.

Lemma exec_try (fuel : nat) (body handler rest : list stmt) (st : state) :
  exec step truth (S fuel) (STry body handler :: rest) st
  = and_then state exn
      match exec step truth fuel body st with
      | Some (Raised _ st') => exec step truth fuel handler st'
      | r => r
      end
      (exec step truth fuel rest).
Proof. reflexivity. Qed.

Lemma exec_simple (p : list stmt) :
  forallb is_simple p = true ->
  forall fuel st,
    List.length p < fuel -> exec step truth fuel p st = Some (run step p st).
Proof.
  induction p as [|s rest IH]; intros Hs fuel st Hf.
  - destruct fuel; [inversion Hf | reflexivity].
  - simpl in Hs. apply andb_true_iff in Hs as [Hs Hrest].
    destruct fuel as [|fuel]; [inversion Hf|].
    simpl in Hf. apply PeanoNat.lt_S_n in Hf.
    destruct s; try discriminate Hs; simpl;
      (destruct (step _ st) as [st'|ex st'];
       [apply IH; assumption | reflexivity]).
Qed.

Lemma run_app (pre post : list stmt) (st0 st1 : state) :
  run step pre st0 = Done st1 ->
  run step (pre ++ post) st0 = run step post st1.
Proof.
  revert st0. induction pre as [|s pre IH]; intros st0 H; simpl in *.
  - injection H as ->. reflexivity.
  - destruct (step s st0) as [st'|e st']; [apply IH; exact H | discriminate H].
Qed.

(** The exception of the first failing statement is the outcome of the
    whole list, and the state is the one that statement left. *)
Lemma run_raise (pre post : list stmt) (s : stmt) (e : exn)
      (st0 st1 st2 : state) :
  run step pre st0 = Done st1 ->
  step s st1 = Raised e st2 ->
  run step (pre ++ s :: post) st0 = Raised e st2.
Proof.
  intros Hpre Hs. rewrite (run_app pre (s :: post) st0 st1 Hpre).
  simpl. rewrite Hs. reflexivity.
Qed.

(** A [try] does stop an exception: the property below rests on its
    absence from the script, not on the semantics ignoring it. *)
Lemma try_catches (body handler : list stmt) (e : exn) (st0 st1 : state)
      (fuel : nat) :
  forallb is_simple body = true -> forallb is_simple handler = true ->
  List.length body < fuel -> List.length handler < fuel ->
  run step body st0 = Raised e st1 ->
  exec step truth (S (S fuel)) [STry body handler] st0
  = Some (run step handler st1).
Proof.
  intros Hb Hh Lb Lh Hrun.
  rewrite exec_try.
  rewrite (exec_simple body Hb (S fuel) st0) by lia.
  rewrite Hrun.
  rewrite (exec_simple handler Hh (S fuel) st1) by lia.
  destruct (run step handler st1); reflexivity.
Qed.

(** The statements begun are a prefix of the list, in its order: a
    statement begins only once all those before it have returned. *)
Lemma run_logged (p : list stmt) :
  forall (log : list stmt) (st : state),
    match run (logged step) p (log, st) with
    | Done (log', _) => log' = log ++ p
    | Raised _ (log', _) =>
        exists pre s post, p = pre ++ s :: post /\ log' = log ++ pre ++ [s]
    end.
Proof.
  induction p as [|s rest IH]; intros log st; simpl.
  - now rewrite app_nil_r.
  - unfold logged at 1. simpl.
    destruct (step s st) as [st'|e st'].
    + specialize (IH (log ++ [s]) st').
      destruct (run (logged step) rest (log ++ [s], st'))
        as [[log' ?]|e [log' ?]].
      * rewrite IH, <- app_assoc. reflexivity.
      * destruct IH as (pre & s' & post & -> & ->).
        exists (s :: pre), s', post. split; [reflexivity|].
        rewrite <- app_assoc. reflexivity.
    + exists [], s, rest. split; reflexivity.
Qed.

(** The log changes nothing of what the statements do. *)
Lemma run_logged_erase (p : list stmt) :
  forall (log : list stmt) (st : state),
    match run (logged step) p (log, st), run step p st with
    | Done (_, st1), Done st2 => st1 = st2
    | Raised e1 (_, st1), Raised e2 st2 => e1 = e2 /\ st1 = st2
    | _, _ => False
    end.
Proof.
  induction p as [|s rest IH]; intros log st; simpl.
  - reflexivity.
  - unfold logged at 1. simpl.
    destruct (step s st) as [st'|e st'].
    + apply IH.
    + split; reflexivity.
Qed.

End Semantics.
End ExecFacts.

(* ===================================================================== *)
(** ** Facts about the data model *)
(* ===================================================================== *)

Module GeoFacts.
Import Geo Props.
Local Open Scope list_scope.

Lemma nth_error_firstn_lt {A} (n i : nat) (l : list A) :
  i < n -> nth_error (firstn n l) i = nth_error l i.
Proof.
  revert i l. induction n as [|n IH]; intros i l Hi; [lia|].
  destruct l as [|x l]; [reflexivity|].
  destruct i as [|i]; [reflexivity|].
  simpl. apply IH. lia.
Qed.

Lemma rows_getitem_slice_0 (f : GeoDataFrame) (hi : nat) :
  rows (getitem_slice f 0 hi) = firstn hi (rows f).
Proof. unfold getitem_slice. simpl. rewrite Nat.sub_0_r. reflexivity. Qed.

(** A new binding is visible ... *)
Lemma deref_bind_new_same (x : string) (f : GeoDataFrame) (m : memory) :
  deref (bind_new x f m) x = Some f.
Proof.
  unfold deref, bind_new. simpl. rewrite String.eqb_refl.
  rewrite nth_error_app2 by lia. rewrite Nat.sub_diag. reflexivity.
Qed.

(** ... and hides no other name, nor changes any object there was. *)
Lemma deref_bind_new_other (x y : string) (f d : GeoDataFrame) (m : memory) :
  String.eqb y x = false ->
  deref m y = Some d -> deref (bind_new x f m) y = Some d.
Proof.
  unfold deref, bind_new. simpl. intros -> H.
  destruct (var_ref (vars m) y) as [r|]; [|discriminate H].
  rewrite nth_error_app1; [exact H|].
  apply nth_error_Some. rewrite H. discriminate.
Qed.

Lemma heap_bind_new (x : string) (f d : GeoDataFrame) (m : memory) (r : nat) :
  nth_error (heap m) r = Some d ->
  nth_error (heap (bind_new x f m)) r = Some d.
Proof.
  intros H. unfold bind_new. simpl.
  rewrite nth_error_app1; [exact H|].
  apply nth_error_Some. rewrite H. discriminate.
Qed.

(** The new name refers to the new object, the last of the heap. *)
Lemma var_ref_bind_new (x : string) (f : GeoDataFrame) (m : memory) :
  var_ref (vars (bind_new x f m)) x = Some (List.length (heap m))
  /\ nth_error (heap (bind_new x f m)) (List.length (heap m)) = Some f.
Proof.
  unfold bind_new. simpl. rewrite String.eqb_refl. split; [reflexivity|].
  rewrite nth_error_app2 by lia. rewrite Nat.sub_diag. reflexivity.
Qed.

(** *** File output *)

(** Writing a file reads one object and changes the files only. *)
Lemma to_file_effect (r : nat) (path driver : string) (s s' : session) :
  to_file r path driver s = Some s' ->
  store s' = store s
  /\ exists f, nth_error (heap (store s)) r = Some f
               /\ disk s' = (path, (driver, f)) :: disk s.
Proof.
  unfold to_file. destruct (nth_error (heap (store s)) r) as [f|];
    [|discriminate].
  intros [= <-]. split; [reflexivity|]. exists f. split; reflexivity.
Qed.

(** It succeeds on every reference to an object. *)
Lemma to_file_defined (r : nat) (path driver : string) (s : session)
      (f : GeoDataFrame) :
  nth_error (heap (store s)) r = Some f ->
  exists s', to_file r path driver s = Some s'.
Proof. unfold to_file. intros ->. eexists. reflexivity. Qed.

(** *** Bounds *)

Lemma Qmin_cases (x y : Q) : Qmin x y = x \/ Qmin x y = y.
Proof.
  unfold Qmin, GenericMinMax.gmin. destruct (x ?= y)%Q; auto.
Qed.

Lemma Qmax_cases (x y : Q) : Qmax x y = x \/ Qmax x y = y.
Proof.
  unfold Qmax, GenericMinMax.gmax. destruct (x ?= y)%Q; auto.
Qed.

Lemma extend_covers_new (b : bounds) (p : point) : covers (extend b p) p.
Proof.
  unfold covers, extend. simpl.
  repeat split;
    auto using Q.le_min_r, Q.le_max_r.
Qed.

Lemma extend_covers_old (b : bounds) (p q : point) :
  covers b q -> covers (extend b p) q.
Proof.
  unfold covers, extend. simpl. intros (H1 & H2 & H3 & H4).
  repeat split.
  - eapply Qle_trans; [apply Q.le_min_l | exact H1].
  - eapply Qle_trans; [exact H2 | apply Q.le_max_l].
  - eapply Qle_trans; [apply Q.le_min_l | exact H3].
  - eapply Qle_trans; [exact H4 | apply Q.le_max_l].
Qed.

(** Extending keeps what is covered ... *)
Lemma fold_extend_base (ps : list point) :
  forall (b : bounds) (q : point),
    covers b q -> covers (fold_left extend ps b) q.
Proof.
  induction ps as [|p ps IH]; intros b q H; simpl; [exact H|].
  apply IH, extend_covers_old, H.
Qed.

(** ... and covers every coordinate added. *)
Lemma fold_extend_step (ps : list point) :
  forall (b : bounds) (q : point),
    In q ps -> covers (fold_left extend ps b) q.
Proof.
  induction ps as [|p ps IH]; intros b q Hin; simpl; [contradiction|].
  destruct Hin as [-> | Hin].
  - apply fold_extend_base, extend_covers_new.
  - apply IH, Hin.
Qed.

Lemma extend_attained (P : point -> Prop) (b : bounds) (p : point) :
  P p -> attained P b -> attained P (extend b p).
Proof.
  intros Hp (H1 & H2 & H3 & H4). unfold attained, extend. simpl.
  repeat split.
  - destruct (Qmin_cases (minx b) (fst p)) as [-> | ->]; [exact H1 | eauto].
  - destruct (Qmin_cases (miny b) (snd p)) as [-> | ->]; [exact H2 | eauto].
  - destruct (Qmax_cases (maxx b) (fst p)) as [-> | ->]; [exact H3 | eauto].
  - destruct (Qmax_cases (maxy b) (snd p)) as [-> | ->]; [exact H4 | eauto].
Qed.

Lemma fold_extend_attained (P : point -> Prop) (ps : list point) :
  forall b : bounds,
    (forall p, In p ps -> P p) -> attained P b ->
    attained P (fold_left extend ps b).
Proof.
  induction ps as [|p ps IH]; intros b Hall Hb; simpl; [exact Hb|].
  apply IH.
  - intros q Hq. apply Hall. right. exact Hq.
  - apply extend_attained; [apply Hall; left; reflexivity | exact Hb].
Qed.

Lemma coords_nonempty (g : geometry) : coords g <> [].
Proof. destruct g; discriminate. Qed.

Lemma all_coords_nonempty (f : GeoDataFrame) :
  rows f <> [] -> all_coords f <> [].
Proof.
  unfold all_coords. destruct (rows f) as [|r rs]; [contradiction|].
  intros _. simpl. pose proof (coords_nonempty (geom r)) as H.
  destruct (coords (geom r)); [contradiction | discriminate].
Qed.

Lemma in_all_coords (f : GeoDataFrame) (r : row) (p : point) :
  In r (rows f) -> In p (coords (geom r)) -> In p (all_coords f).
Proof.
  intros Hr Hp. unfold all_coords. apply in_flat_map. exists r. auto.
Qed.

(** *** Reprojection *)

Lemma coords_map_geometry (t : point -> point) (g : geometry) :
  coords (map_geometry t g) = map t (coords g).
Proof. destruct g; reflexivity. Qed.

Lemma kind_map_geometry (t : point -> point) (g : geometry) :
  kind_of (map_geometry t g) = kind_of g.
Proof. destruct g; reflexivity. Qed.

(** A frame with a reference system is reprojected ... *)
Lemma to_crs_defined (transform : Z -> Z -> point -> point)
      (target source : Z) (f : GeoDataFrame) :
  crs f = Some source -> exists g, to_crs transform target f = Some g.
Proof. unfold to_crs. intros ->. eexists. reflexivity. Qed.

(** ... and one without is not. *)
Lemma to_crs_unset (transform : Z -> Z -> point -> point)
      (target : Z) (f : GeoDataFrame) :
  crs f = None -> to_crs transform target f = None.
Proof. unfold to_crs. intros ->. reflexivity. Qed.

(** Row by row: the attribute values and the kind of geometry stay, the
    coordinates are the transforms of those there were. *)
Lemma to_crs_row (transform : Z -> Z -> point -> point)
      (target source : Z) (f g : GeoDataFrame) (i : nat) (r : row) :
  crs f = Some source ->
  to_crs transform target f = Some g ->
  nth_error (rows f) i = Some r ->
  exists r', nth_error (rows g) i = Some r'
             /\ attributes r' = attributes r
             /\ kind_of (geom r') = kind_of (geom r)
             /\ coords (geom r')
                = map (transform source target) (coords (geom r)).
Proof.
  unfold to_crs. intros -> [= <-] Hr. simpl.
  exists (reproject_row transform source target r).
  split; [rewrite nth_error_map, Hr; reflexivity|].
  split; [reflexivity|].
  split; [apply kind_map_geometry | apply coords_map_geometry].
Qed.

Lemma to_crs_shape (transform : Z -> Z -> point -> point)
      (target : Z) (f g : GeoDataFrame) :
  to_crs transform target f = Some g ->
  List.length (rows g) = List.length (rows f)
  /\ columns g = columns f
  /\ crs g = Some target.
Proof.
  unfold to_crs. destruct (crs f) as [source|]; [|discriminate].
  intros [= <-]. simpl. rewrite length_map. repeat split.
Qed.

End GeoFacts.

(* ===================================================================== *)
(** ** Properties of the script *)
(* ===================================================================== *)

Import Py Notebook Flow Exec Props.
Local Open Scope list_scope.

Lemma script_trace_eq : script_trace = trace script.
Proof. vm_compute. reflexivity. Qed.

(** C1, the claim as it stands.  The first coordinate component is not the
    longitude for every geometry of the pipeline, whatever the files hold:
    line 144 reads [data_in_3857], which line 143 made by
    [to_crs('epsg:3857')]; in Web Mercator the units are metres (lines
    117-124) and the first component is the distance east of the origin. *)
Lemma reprojected_coordinates_are_metres :
  ~ exists file_crs : string -> Z,
      Coordinates.longitude_first_everywhere file_crs script.
Proof.
  intros [file_crs H].
  destruct (H 144 (FromFile 58 (Some flood_shp)) (CrsEPSG 3857)) as [E | E].
  - vm_compute. repeat (first [ left; reflexivity | right ]).
  - discriminate E.
  - vm_compute in E. discriminate E.
Qed.

(** C1.  The coordinates the script handles are ordered x then y, which is
    longitude then latitude where the reference system is in degrees.
    Every place where the script hands coordinates to a library is listed,
    each value with the frame it is taken from: the limits of the axes,
    the bounds given to [bounds2img], the location of [folium.Map] and the
    four tuples of the MIT polygon; the list agrees with the one of the
    trace.  Each use is in the order its call takes: the only call that
    takes the latitude first is [folium.Map] (line 366), and the script
    gives it [(data_centroid.y, data_centroid.x)], which the other order
    would not fit.  With the two files in EPSG:4326, the values taken from
    frames are longitudes and latitudes in lines 273 and 366, and metres in
    line 280, whose bounds come from the frame reprojected to EPSG:3857.
    The tuples of the MIT polygon are [coordinates] unchanged, each a
    longitude and a latitude of the campus, which a swapped tuple is not;
    the x limits of line 229 are too large for latitudes, and the x axis
    is labelled Longitude, the y axis Latitude.  Every geometry of the
    pipeline comes from one of the two files, from the frame built on line
    417 or from the polygon of line 433; its first coordinate component is
    the longitude, except that the frames reprojected to EPSG:3857 (lines
    143, 144, 278, 279 and 479) have the distance east in metres, and that
    the frame and the polygon of lines 417-460 have no reference system
    yet: they hold the tuples of the MIT polygon. *)
Theorem coordinates_x_then_y (file_crs : string -> Z) :
  file_crs flood_shp = 4326%Z ->
  file_crs health_geojson = 4326%Z ->
  Coordinates.coordinate_uses script
  = (let flood := CrsOfFile (Some flood_shp) in
     let use l n ex g :=
       {| Coordinates.on_line := l; Coordinates.by_call := n;
          Coordinates.expected := ex; Coordinates.given := g |} in
     [ use 229 "set_xlim" [X; X]
           [Coordinates.Number 115; Coordinates.Number 130];
       use 230 "set_ylim" [Y; Y]
           [Coordinates.Number 0; Coordinates.Number 25];
       use 273 "bounds2img" [X; Y; X; Y]
           [Coordinates.Taken X flood; Coordinates.Taken Y flood;
            Coordinates.Taken X flood; Coordinates.Taken Y flood];
       use 280 "set(xlim)" [X; X]
           [Coordinates.Taken X (CrsEPSG 3857);
            Coordinates.Taken X (CrsEPSG 3857)];
       use 280 "set(ylim)" [Y; Y]
           [Coordinates.Taken Y (CrsEPSG 3857);
            Coordinates.Taken Y (CrsEPSG 3857)];
       use 366 "folium.Map" [Y; X]
           [Coordinates.Taken Y flood; Coordinates.Taken X flood] ]
     ++ map Coordinates.polygon_use coordinates)
  /\ map Coordinates.forget (Coordinates.coordinate_uses script)
     = coord_uses (trace script)
  /\ forallb (Coordinates.ordered Coordinates.campus_region)
             (Coordinates.coordinate_uses script) = true
  /\ Coordinates.measured file_crs (Coordinates.coordinate_uses script)
     = (let q := Some in
        [ (273, "bounds2img",
           [q Coordinates.Longitude; q Coordinates.Latitude;
            q Coordinates.Longitude; q Coordinates.Latitude]);
          (280, "set(xlim)", [q Coordinates.Easting; q Coordinates.Easting]);
          (280, "set(ylim)", [q Coordinates.Northing; q Coordinates.Northing]);
          (366, "folium.Map", [q Coordinates.Latitude; q Coordinates.Longitude]) ])
  /\ map (fun u => (Coordinates.on_line u, Coordinates.by_call u))
         (filter Coordinates.latitude_first (Coordinates.coordinate_uses script))
     = [ (366, "folium.Map") ]
  /\ map (kwarg "location") (calls_named "Map" statements)
     = [ Some (ETuple [EAttr (EName "data_centroid") "y";
                       EAttr (EName "data_centroid") "x"]) ]
  /\ Coordinates.ordered Coordinates.campus_region
       {| Coordinates.on_line := 366; Coordinates.by_call := "folium.Map";
          Coordinates.expected := [Y; X];
          Coordinates.given :=
            [Coordinates.Taken X (CrsOfFile (Some flood_shp));
             Coordinates.Taken Y (CrsOfFile (Some flood_shp))] |} = false
  /\ stmts_at 433 script
     = [ SAssign (EName "poly") (ECall (EName "Polygon") [EName "coordinates"] []) ]
  /\ lookup (env_after initial_env script) "coordinates"
     = ASeq (map (fun p => ASeq [ANum (fst p); ANum (snd p)]) coordinates)
  /\ map Geo.coords (polygon coordinates) = [coordinates]
  /\ forallb (Coordinates.lon_lat_within Coordinates.campus_region)
             coordinates = true
  /\ forallb (fun p => negb (Coordinates.ordered Coordinates.campus_region
                               (Coordinates.polygon_use (Coordinates.swap p))))
             coordinates = true
  /\ forallb (fun z => Coordinates.in_range X (inject_Z z)
                       && negb (Coordinates.in_range Y (inject_Z z)))
             [115%Z; 130%Z] = true
  /\ axis_labels (trace script)
     = [ (196, (X, AStr "Longitude")); (197, (Y, AStr "Latitude")) ]
  /\ Coordinates.systems script
     = [ (CrsOfFile (Some flood_shp), 45); (CrsEPSG 3857, 5);
         (CrsOfFile (Some health_geojson), 11); (CrsUnset, 13);
         (CrsEPSG 4326, 4) ]
  /\ (forall line o c,
        In (line, o, c) (Coordinates.geometry_values script) ->
        match Coordinates.first_component file_crs c with
        | Some Coordinates.Longitude => True
        | Some Coordinates.Easting =>
            c = CrsEPSG 3857 /\ In line [143; 144; 278; 279; 479]
        | Some _ => False
        | None => c = CrsUnset /\ In o [InMemory 417; InMemory 433]
        end)
  /\ productions (trace script)
     = [ FromFile 58 (Some flood_shp); FromFile 320 (Some health_geojson);
         InMemory 417; InMemory 433 ].
Proof.
  intros Hflood Hhealth.
  rewrite <- script_trace_eq.
  split; [vm_compute; reflexivity|].
  split; [vm_compute; reflexivity|].
  split; [vm_compute; reflexivity|].
  split.
  { set (us := Coordinates.coordinate_uses script).
    vm_compute in us. subst us.
    cbv [Coordinates.measured flat_map Coordinates.given Coordinates.on_line
         Coordinates.by_call app map Coordinates.reading Uses.units_of
         resolve option_map].
    change (file_crs _) with (file_crs flood_shp).
    rewrite Hflood. reflexivity. }
  split; [vm_compute; reflexivity|].
  split; [vm_compute; reflexivity|].
  split; [vm_compute; reflexivity|].
  split; [vm_compute; reflexivity|].
  split; [vm_compute; reflexivity|].
  split; [vm_compute; reflexivity|].
  split; [vm_compute; reflexivity|].
  split; [vm_compute; reflexivity|].
  split; [vm_compute; reflexivity|].
  split; [vm_compute; reflexivity|].
  split; [vm_compute; reflexivity|].
  split; [|vm_compute; reflexivity].
  intros line o c HIn.
  set (vs := Coordinates.geometry_values script) in HIn.
  vm_compute in vs. subst vs.
  unfold Coordinates.first_component, Uses.units_of, resolve.
  repeat (destruct HIn as [E | HIn];
          [ injection E as <- <- <-;
            first [ change (file_crs _) with (file_crs flood_shp);
                    rewrite Hflood; exact I
                  | change (file_crs _) with (file_crs health_geojson);
                    rewrite Hhealth; exact I
                  | exact I
                  | split; [reflexivity | simpl; tauto] ]
          | ]).
  contradiction.
Qed.

(** Both files in EPSG:4326. *)
Lemma coordinates_x_then_y_witness :
  (fun _ : string => 4326%Z) flood_shp = 4326%Z
  /\ (fun _ : string => 4326%Z) health_geojson = 4326%Z
  /\ Coordinates.measured (fun _ => 4326%Z) (Coordinates.coordinate_uses script)
     = [ (273, "bounds2img",
          [Some Coordinates.Longitude; Some Coordinates.Latitude;
           Some Coordinates.Longitude; Some Coordinates.Latitude]);
         (280, "set(xlim)",
          [Some Coordinates.Easting; Some Coordinates.Easting]);
         (280, "set(ylim)",
          [Some Coordinates.Northing; Some Coordinates.Northing]);
         (366, "folium.Map",
          [Some Coordinates.Latitude; Some Coordinates.Longitude]) ].
Proof.
  split; [reflexivity|]. split; [reflexivity|].
  exact (proj1 (proj2 (proj2 (proj2
           (coordinates_x_then_y (fun _ => 4326%Z) eq_refl eq_refl))))).
Defined.

(** C2.  Areas are taken in two states only.  [.area] is read twice: on
    line 137 on [data], which carries the reference system of the file it
    was read from, and on line 144 on [data_in_3857], which line 143 made
    from [data] by [to_crs('epsg:3857')].  When the file is in EPSG:4326
    (line 210), the first read warns and the second does not; the check
    itself warns in EPSG:4326 and not in EPSG:3857.  Both reads are bare
    expression statements: their value is displayed and dropped, never
    bound to a name or passed to a call. *)
Theorem area_warns_before_reprojection (file_crs : string -> Z) :
  file_crs flood_shp = 4326%Z ->
  area_warnings file_crs (trace script) = [(137, Some true); (144, Some false)]
  /\ area_sites (trace script)
     = [(137, CrsOfFile (Some flood_shp)); (144, CrsEPSG 3857)]
  /\ reading_attr "area" script
     = [ (137, SExpr (EAttr (EName "data") "area"));
         (144, SExpr (EAttr (EName "data_in_3857") "area")) ]
  /\ stmts_at 143 script
     = [ SAssign (EName "data_in_3857")
           (ECall (EAttr (EName "data") "to_crs") [EStr "epsg:3857"] []) ]
  /\ lookup (env_after initial_env script) "data_in_3857"
     = AGeo (FromFile 58 (Some flood_shp)) (CrsEPSG 3857)
  /\ Geo.area_warns 4326 = Some true
  /\ Geo.area_warns 3857 = Some false.
Proof.
  intros Hcrs. rewrite <- script_trace_eq.
  repeat split; try (vm_compute; reflexivity).
  unfold area_warnings, script_trace, area_sites, pick. cbn -[Geo.area_warns].
  change "philippines_flood_risk/phl_ica_floodrisk_geonode_mar2014.shp"
    with flood_shp.
  rewrite Hcrs. reflexivity.
Qed.

Lemma area_warns_before_reprojection_witness :
  (fun _ : string => 4326%Z) flood_shp = 4326%Z
  /\ area_warnings (fun _ => 4326%Z) (trace script)
     = [(137, Some true); (144, Some false)].
Proof.
  split; [reflexivity|].
  exact (proj1 (area_warns_before_reprojection (fun _ => 4326%Z) eq_refl)).
Defined.

(** C3, as stated, fails: the plot of line 479 works on [newdata], which
    line 417 built in memory with [gpd.GeoDataFrame()]; no file was loaded
    into it. *)
Lemma rendering_of_unloaded_frame : ~ renders_only_loaded (trace script).
Proof.
  intros H.
  specialize (H 479 "plot" (InMemory 417) (CrsEPSG 3857)).
  rewrite <- script_trace_eq in H.
  assert (Hin : In (479, Render "plot" (InMemory 417) (CrsEPSG 3857))
                   script_trace).
  { unfold script_trace.
    repeat (first [ left; reflexivity | right ]). }
  specialize (H Hin). discriminate H.
Qed.

(** C3, amended.  The operations of the script come in the order of the
    pipeline.  Every name is bound before it is read; every frame an
    operation works on was produced earlier, by [gpd.read_file] (lines 58
    and 320) or, for [newdata], by [gpd.GeoDataFrame()] (line 417); every
    inspection, reprojection, rendering and export comes after the first
    load; every [plot] and [explore] works on one of these three frames;
    every [to_crs] and [to_file] likewise; every [ctx.add_basemap] gets an
    axes that the latest assignment to [ax] took from a [plot] call.  No
    call of these methods escapes the analysis: the script writes as many
    as the trace has. *)
Theorem pipeline_order :
  defined_before_use builtins statements = true
  /\ produced_before_use [] (trace script) = true
  /\ after_first_load (trace script) = true
  /\ map fst (loads (trace script)) = [58; 320]
  /\ renders (trace script)
     = [ (169, ("plot", FromFile 58 (Some flood_shp)));
         (179, ("plot", FromFile 58 (Some flood_shp)));
         (190, ("plot", FromFile 58 (Some flood_shp)));
         (217, ("plot", FromFile 58 (Some flood_shp)));
         (228, ("plot", FromFile 58 (Some flood_shp)));
         (251, ("plot", FromFile 58 (Some flood_shp)));
         (278, ("plot", FromFile 58 (Some flood_shp)));
         (294, ("explore", FromFile 58 (Some flood_shp)));
         (312, ("explore", FromFile 58 (Some flood_shp)));
         (328, ("explore", FromFile 320 (Some health_geojson)));
         (348, ("explore", FromFile 58 (Some flood_shp)));
         (350, ("explore", FromFile 320 (Some health_geojson)));
         (369, ("explore", FromFile 58 (Some flood_shp)));
         (374, ("explore", FromFile 320 (Some health_geojson)));
         (479, ("plot", InMemory 417)) ]
  /\ map (fun r => (fst r, fst (fst (snd r)))) (reprojections (trace script))
     = [ (143, FromFile 58 (Some flood_shp));
         (278, FromFile 58 (Some flood_shp));
         (279, FromFile 58 (Some flood_shp));
         (479, InMemory 417) ]
  /\ export_origins (trace script)
     = [ (407, FromFile 58 (Some flood_shp)); (472, InMemory 417) ]
  /\ basemaps (trace script)
     = [ (221, AAxes true); (231, AAxes true); (254, AAxes true);
         (256, AAxes true); (480, AAxes true) ]
  /\ List.length (calls_named "plot" statements)
     + List.length (calls_named "explore" statements)
     = List.length (renders (trace script))
  /\ List.length (calls_named "to_crs" statements)
     = List.length (reprojections (trace script))
  /\ List.length (calls_named "to_file" statements)
     = List.length (exports (trace script))
  /\ List.length (calls_named "add_basemap" statements)
     = List.length (basemaps (trace script))
  /\ List.length (calls_named "read_file" statements)
     = List.length (loads (trace script)).
Proof.
  rewrite <- script_trace_eq.
  repeat split; vm_compute; reflexivity.
Qed.

(** C4.  The vector files of the script.  It reads two, each by one call
    of [gpd.read_file]: a Shapefile (line 58, the path of line 55 ends in
    [.shp], no driver given) and a GeoJSON file (line 320, driver
    ['GeoJSON']).  It writes two, each by one call of [to_file]: GeoJSON
    (line 407, driver ['GeoJSON']) and a Shapefile (line 472, no driver,
    the path of line 469 ends in [.shp]).  These are all the calls of
    [read_file] and [to_file] the script writes, and the calls it makes
    into geopandas have no other reader or writer among them; the two
    other files it writes are the PNG images of [plt.savefig]. *)
Theorem vector_file_formats :
  loads (trace script)
  = [ (58, (Some flood_shp, None));
      (320, (Some health_geojson, Some "GeoJSON")) ]
  /\ exports (trace script)
     = [ (407, (Some selection_json, Some "GeoJSON"));
         (472, (Some campus_shp, None)) ]
  /\ map format_of (loads (trace script))
     = [Some "ESRI Shapefile"; Some "GeoJSON"]
  /\ map format_of (exports (trace script))
     = [Some "GeoJSON"; Some "ESRI Shapefile"]
  /\ map Geo.extension [flood_shp; health_geojson; campus_shp]
     = ["shp"; "geojson"; "shp"]
  /\ List.length (calls_named "read_file" statements) = 2
  /\ List.length (calls_named "to_file" statements) = 2
  /\ map (posarg 0) (calls_named "savefig" statements)
     = [ Some (EStr "watercolor_example.png");
         Some (EStr "MIT_main_campus_poly.png") ]
  /\ map fst
       (count_by String.eqb
          (map (fun c => snd (snd c))
             (filter (fun c => option_eqb String.eqb (fst (snd c))
                                 (Some "geopandas"))
                (calls (trace script)))))
     = [ "read_file"; "head"; "to_crs"; "plot"; "explore"; "astype";
         "dissolve"; "to_file"; "GeoDataFrame"; "set_crs" ].
Proof.
  rewrite <- script_trace_eq.
  repeat split; vm_compute; reflexivity.
Qed.

(** C5.  The script handles no error.  All its statements are simple: it
    has no [try], no loop that could retry, no branch that could recover.
    So, whatever the libraries do: when the statements before [s] have
    completed and [s] raises [e], the execution of the script ends with [e]
    raised, in the state [s] left. *)
Theorem exceptions_propagate
        (state exn : Type) (step : stmt -> state -> result state exn)
        (truth : expr -> state -> bool)
        (pre post : list stmt) (s : stmt) (e : exn) (st0 st1 st2 : state)
        (fuel : nat) :
  statements = pre ++ s :: post ->
  run step pre st0 = Done st1 ->
  step s st1 = Raised e st2 ->
  List.length statements < fuel ->
  forallb is_simple statements = true
  /\ existsb is_try statements = false
  /\ exec step truth fuel statements st0 = Some (Raised e st2).
Proof.
  intros Hsplit Hpre Hs Hfuel.
  assert (Hsimple : forallb is_simple statements = true)
    by (vm_compute; reflexivity).
  split; [exact Hsimple|].
  split; [vm_compute; reflexivity|].
  rewrite (ExecFacts.exec_simple state exn step truth statements Hsimple
             fuel st0 Hfuel).
  rewrite Hsplit.
  rewrite (ExecFacts.run_raise state exn step pre post s e st0 st1 st2 Hpre Hs).
  reflexivity.
Qed.

(** With the file of line 55 missing, the script stops at line 58 with the
    nine statements before it done. *)
Lemma exceptions_propagate_witness :
  statements = firstn 9 statements ++ nth 9 statements (SExpr ENone)
                                   :: skipn 10 statements
  /\ run missing_file (firstn 9 statements) 0 = Done 9
  /\ missing_file (nth 9 statements (SExpr ENone)) 9
     = Raised "FileNotFoundError" 9
  /\ exec missing_file (fun _ _ => true) 100 statements 0
     = Some (Raised "FileNotFoundError" 9).
Proof.
  assert (H1 : statements = firstn 9 statements
                            ++ nth 9 statements (SExpr ENone)
                            :: skipn 10 statements)
    by (vm_compute; reflexivity).
  assert (H2 : run missing_file (firstn 9 statements) 0 = Done 9)
    by (vm_compute; reflexivity).
  assert (H3 : missing_file (nth 9 statements (SExpr ENone)) 9
               = Raised "FileNotFoundError" 9)
    by (vm_compute; reflexivity).
  assert (H4 : List.length statements < 100)
    by (vm_compute; lia).
  refine (conj H1 (conj H2 (conj H3 _))).
  exact (proj2 (proj2 (exceptions_propagate nat string missing_file
                         (fun _ _ => true) _ _ _ _ 0 9 9 100 H1 H2 H3 H4))).
Defined.

(** C6, as stated, fails: the statement of line 48 makes two calls, and
    neither goes into a geospatial library; it has the notebook shell run
    [unzip]. *)
Lemma shell_command_is_not_geospatial : ~ only_geospatial_calls script.
Proof.
  unfold only_geospatial_calls. intros H.
  rewrite Forall_forall in H.
  specialize (H (48, [(Some "IPython", "get_ipython");
                      (Some "IPython", "system")])).
  assert (Hin : In (48, [(Some "IPython", "get_ipython");
                         (Some "IPython", "system")])
                   (per_statement initial_env script)).
  { vm_compute. repeat (first [ left; reflexivity | right ]). }
  specialize (H Hin). discriminate H.
Qed.

(** C6, amended.  The script computes nothing itself: all its statements
    are imports, assignments and expressions, none has a binary operator, a
    lambda or an await, and a minus sign stands only before a numeric
    literal.  What it does, it does by calls, at most two in a statement;
    each call goes into an imported library or an object obtained from one
    (geopandas, contextily, folium, shapely, matplotlib), into the builtins
    [type] and [print], or into the notebook shell, which runs the two
    commands [unzip] and [mkdir].  The row slice of line 404 and the item
    assignments of lines 420, 443 and 450 are subscripts on a geopandas
    frame and make no call; the column assignment of line 341 makes the
    one call [astype], on a column of a geopandas frame. *)
Theorem statements_are_library_calls :
  forallb is_simple statements = true
  /\ existsb computes (all_subexprs statements) = false
  /\ forallb (fun lc => Nat.leb (List.length (snd lc)) 2)
             (per_statement initial_env script) = true
  /\ count_by (option_eqb String.eqb)
       (map (fun c => fst (snd c)) (calls (trace script)))
     = [ (Some "IPython", 4); (Some "geopandas", 28); (Some "builtins", 2);
         (Some "matplotlib", 14); (Some "contextily", 6); (Some "folium", 3);
         (Some "shapely", 1) ]
  /\ filter (fun c => option_eqb String.eqb (fst (snd c)) (Some "builtins"))
            (calls (trace script))
     = [ (77, (Some "builtins", "type")); (423, (Some "builtins", "print")) ]
  /\ shells (trace script)
     = [ (48, "unzip phl_ica_floodrisk_geonode_mar2014.zip -d philippines_flood_risk");
         (394, "mkdir output_data -p") ]
  /\ List.length (calls (trace script))
     = List.length (filter is_call (all_subexprs statements))
  /\ filter (fun lc => existsb (Nat.eqb (fst lc)) [341; 404; 420; 443; 450])
            (per_statement initial_env script)
     = [ (341, [(Some "geopandas", "astype")]); (404, []); (420, []);
         (443, []); (450, []) ]
  /\ stmts_at 404 script
     = [ SAssign (EName "selection")
           (ESubscript (EName "data") (ESlice (EInt 0) (EInt 20))) ].
Proof.
  rewrite <- script_trace_eq.
  repeat split; vm_compute; reflexivity.
Qed.

(** C7, as stated, fails: the script does create processes.  Line 48 has
    the shell run the command-line program [unzip] (and line 394
    [mkdir]). *)
Lemma shell_commands_create_processes : ~ creates_no_process (trace script).
Proof.
  intros H.
  apply (H 48 "unzip phl_ica_floodrisk_geonode_mar2014.zip -d philippines_flood_risk").
  rewrite <- script_trace_eq. unfold script_trace.
  repeat (first [ left; reflexivity | right ]).
Qed.

(** C7, amended.  The script is one sequential trace.  It imports no
    module for threads, processes or asynchronous tasks, defines no
    function (so no [async def]), awaits nothing, and calls nothing but
    the thirty-three names listed; the only processes it asks for are the
    two shell commands of lines 48 and 394.  Whatever the libraries do,
    the statements begin in the order of the script, each after all those
    before it have returned: the statements begun are the whole script, or,
    after an exception, its prefix up to the statement that raised. *)
Theorem single_sequential_trace
        (state exn : Type) (step : stmt -> state -> result state exn)
        (st0 : state) :
  imports statements
  = [ "geopandas"; "contextily"; "shapely.geometry"; "matplotlib"; "folium";
      "fiona"; "xyzservices.providers" ]
  /\ forallb is_simple statements = true
  /\ existsb computes (all_subexprs statements) = false
  /\ map fst (count_by String.eqb
                (map (fun c => snd (snd c)) (calls (trace script))))
     = [ "get_ipython"; "system"; "read_file"; "head"; "type"; "to_crs";
         "plot"; "set_title"; "set_xlabel"; "set_ylabel"; "show";
         "add_basemap"; "set_xlim"; "set_ylim"; "bounds2img"; "figure";
         "add_subplot"; "imshow"; "set"; "axis"; "savefig"; "explore";
         "astype"; "dissolve"; "Map"; "LayerControl"; "add_to"; "to_file";
         "GeoDataFrame"; "print"; "Polygon"; "set_crs"; "set_axis_off" ]
  /\ map fst (shells (trace script)) = [48; 394]
  /\ match run (logged step) statements ([], st0) with
     | Done (log, _) => log = statements
     | Raised _ (log, _) =>
         exists pre s post,
           statements = pre ++ s :: post /\ log = pre ++ [s]
     end.
Proof.
  rewrite <- script_trace_eq.
  repeat split; try (vm_compute; reflexivity).
  exact (ExecFacts.run_logged state exn step statements [] st0).
Qed.

(** C8.  Selecting and exporting rows leaves the data as it was.  Line 404
    is [selection = data[0:20]] and line 407 writes [selection] to
    [output_data/data_selection.json] with the GeoJSON driver; the
    statement of line 407 binds no name.  For every session in which [data]
    names a frame, both statements run, and: [selection] names a new frame
    with the columns and reference system of [data] and its first twenty
    rows -- rows 0 to 19 in order when [data] has twenty or more, all its
    rows when it has fewer; after the selection [data] still names the
    frame it named, no object there was has changed and no file is written;
    after [to_file] the names and the objects in memory are what they were
    before it, so [data] and [selection] are unchanged, and the files have
    one more, holding the selection. *)
Theorem selection_export_leaves_data
        (s : Geo.session) (data : Geo.GeoDataFrame) :
  Geo.deref (Geo.store s) "data" = Some data ->
  stmts_at 404 script
  = [ SAssign (EName "selection")
        (ESubscript (EName "data") (ESlice (EInt 0) (EInt 20))) ]
  /\ stmts_at 407 script
     = [ SExpr (ECall (EAttr (EName "selection") "to_file") [EName "outfp"]
                  [("driver", EStr "GeoJSON")]) ]
  /\ In (407, (Some selection_json, Some "GeoJSON")) (exports (trace script))
  /\ flat_map stmt_binds (stmts_at 407 script) = []
  /\ exists s1 s2 selection,
       Geo.select_rows s = Some s1
       /\ Geo.write_selection s1 = Some s2
       /\ Geo.deref (Geo.store s1) "selection" = Some selection
       /\ Geo.rows selection = firstn 20 (Geo.rows data)
       /\ Geo.columns selection = Geo.columns data
       /\ Geo.crs selection = Geo.crs data
       /\ (20 <= List.length (Geo.rows data) ->
           List.length (Geo.rows selection) = 20
           /\ forall i, i < 20 ->
                nth_error (Geo.rows selection) i = nth_error (Geo.rows data) i)
       /\ (List.length (Geo.rows data) < 20 ->
           Geo.rows selection = Geo.rows data)
       /\ Geo.deref (Geo.store s1) "data" = Some data
       /\ (forall r d, nth_error (Geo.heap (Geo.store s)) r = Some d ->
                       nth_error (Geo.heap (Geo.store s1)) r = Some d)
       /\ Geo.disk s1 = Geo.disk s
       /\ Geo.store s2 = Geo.store s1
       /\ Geo.deref (Geo.store s2) "data" = Some data
       /\ Geo.deref (Geo.store s2) "selection" = Some selection
       /\ Geo.disk s2 = (selection_json, ("GeoJSON", selection)) :: Geo.disk s.
Proof.
  intros Hdata.
  split; [vm_compute; reflexivity|].
  split; [vm_compute; reflexivity|].
  split; [rewrite <- script_trace_eq; vm_compute; left; reflexivity|].
  split; [vm_compute; reflexivity|].
  set (selection := Geo.getitem_slice data 0 20).
  set (s1 := {| Geo.store := Geo.bind_new "selection" selection (Geo.store s);
                Geo.disk := Geo.disk s |}).
  assert (Hrows : Geo.rows selection = firstn 20 (Geo.rows data))
    by apply GeoFacts.rows_getitem_slice_0.
  assert (Hsel : Geo.deref (Geo.store s1) "selection" = Some selection)
    by apply GeoFacts.deref_bind_new_same.
  assert (Hkeep : Geo.deref (Geo.store s1) "data" = Some data)
    by (apply GeoFacts.deref_bind_new_other; [reflexivity | exact Hdata]).
  destruct (GeoFacts.var_ref_bind_new "selection" selection (Geo.store s))
    as [Hvar Hobj].
  destruct (GeoFacts.to_file_defined _ selection_json "GeoJSON" s1 selection Hobj)
    as [s2 Hs2].
  destruct (GeoFacts.to_file_effect _ _ _ _ _ Hs2) as (Hstore & f & Hf & Hdisk).
  change (Geo.heap (Geo.store s1))
    with (Geo.heap (Geo.bind_new "selection" selection (Geo.store s))) in Hf.
  rewrite Hobj in Hf. injection Hf as <-.
  exists s1, s2, selection.
  split; [unfold Geo.select_rows; rewrite Hdata; reflexivity|].
  split; [unfold Geo.write_selection; fold selection_json;
          change (Geo.vars (Geo.store s1))
            with (Geo.vars (Geo.bind_new "selection" selection (Geo.store s)));
          rewrite Hvar; exact Hs2|].
  split; [exact Hsel|].
  split; [exact Hrows|].
  split; [reflexivity|].
  split; [reflexivity|].
  split.
  { intros Hge. rewrite Hrows. split.
    - apply firstn_length_le, Hge.
    - intros i Hi. apply GeoFacts.nth_error_firstn_lt, Hi. }
  split; [intros Hlt; rewrite Hrows; apply firstn_all2; lia|].
  split; [exact Hkeep|].
  split; [intros r d; apply GeoFacts.heap_bind_new|].
  split; [reflexivity|].
  split; [exact Hstore|].
  split; [rewrite Hstore; exact Hkeep|].
  split; [rewrite Hstore; exact Hsel|].
  exact Hdisk.
Qed.

(** Two sessions: [data] with twenty-five rows, of which [selection] gets
    the first twenty, and [data] with three rows, of which it gets all. *)
Lemma selection_export_leaves_data_witness :
  (Geo.deref (Geo.store (session_with long_frame)) "data" = Some long_frame
   /\ 20 <= List.length (Geo.rows long_frame)
   /\ exists s1 s2 selection,
        Geo.select_rows (session_with long_frame) = Some s1
        /\ Geo.write_selection s1 = Some s2
        /\ Geo.deref (Geo.store s1) "selection" = Some selection
        /\ List.length (Geo.rows selection) = 20
        /\ nth_error (Geo.rows selection) 19 = nth_error (Geo.rows long_frame) 19
        /\ Geo.deref (Geo.store s2) "data" = Some long_frame
        /\ Geo.deref (Geo.store s2) "selection" = Some selection)
  /\ (Geo.deref (Geo.store (session_with sample_frame)) "data"
      = Some sample_frame
      /\ exists s1 selection,
           Geo.select_rows (session_with sample_frame) = Some s1
           /\ Geo.deref (Geo.store s1) "selection" = Some selection
           /\ Geo.rows selection = Geo.rows sample_frame).
Proof.
  assert (Hlong : 20 <= List.length (Geo.rows long_frame))
    by (vm_compute; lia).
  split.
  - split; [reflexivity|]. split; [exact Hlong|].
    destruct (selection_export_leaves_data (session_with long_frame)
                long_frame eq_refl)
      as (_ & _ & _ & _ & s1 & s2 & selection & H1 & H2 & H3 & _ & _ & _
          & H7 & _ & _ & _ & _ & _ & H13 & H14 & _).
    destruct (H7 Hlong) as [Hlen Hnth].
    exists s1, s2, selection.
    refine (conj H1 (conj H2 (conj H3 (conj Hlen (conj (Hnth 19 _)
              (conj H13 H14)))))).
    lia.
  - split; [reflexivity|].
    destruct (selection_export_leaves_data (session_with sample_frame)
                sample_frame eq_refl)
      as (_ & _ & _ & _ & s1 & _ & selection & H1 & _ & H3 & _ & _ & _
          & _ & H8 & _).
    exists s1, selection.
    refine (conj H1 (conj H3 (H8 _))).
    vm_compute. lia.
Defined.

(** C9, the claim as it stands.  [to_crs] does not return a frame for every
    frame: the frame [newdata] of lines 417-450, which has no reference
    system yet, has nothing to be transformed from. *)
Lemma reprojection_needs_reference_system : ~ Geo.reprojects_every_frame.
Proof.
  intros H. destruct (H sample_transform campus_frame) as [g Hg].
  discriminate Hg.
Qed.

(** C9.  Reprojection changes the geometry only.  Line 143 is
    [data_in_3857 = data.to_crs('epsg:3857')]; no call of [to_crs] in the
    script asks for a change in place, and each of the four is made on a
    frame that has a reference system.  For every session in which [data]
    names a frame with a reference system, and whatever the transform
    between reference systems: [data_in_3857] names a new frame with as
    many rows and the same columns; row by row, the attribute values and
    the kind of geometry are those of [data] and the coordinates are the
    transforms of those of [data]; its reference system is 3857; [data]
    still names the frame it named, no object there was has changed and no
    file is written.  A frame without a reference system is not
    reprojected. *)
Theorem reprojection_changes_geometry_only
        (transform : Z -> Z -> Geo.point -> Geo.point)
        (s : Geo.session) (data : Geo.GeoDataFrame) (source : Z) :
  Geo.deref (Geo.store s) "data" = Some data ->
  Geo.crs data = Some source ->
  stmts_at 143 script
  = [ SAssign (EName "data_in_3857")
        (ECall (EAttr (EName "data") "to_crs") [EStr "epsg:3857"] []) ]
  /\ map keyword_names (calls_named "to_crs" statements)
     = [ []; ["epsg"]; ["epsg"]; ["epsg"] ]
  /\ Uses.crs_tags (Uses.receivers "to_crs" script)
     = [ (143, CrsOfFile (Some flood_shp)); (278, CrsOfFile (Some flood_shp));
         (279, CrsOfFile (Some flood_shp)); (479, CrsEPSG 4326) ]
  /\ (forall f, Geo.crs f = None -> Geo.to_crs transform 3857 f = None)
  /\ exists s1 data_in_3857,
       Geo.reproject_data transform s = Some s1
       /\ Geo.deref (Geo.store s1) "data_in_3857" = Some data_in_3857
       /\ List.length (Geo.rows data_in_3857) = List.length (Geo.rows data)
       /\ Geo.columns data_in_3857 = Geo.columns data
       /\ (forall i r, nth_error (Geo.rows data) i = Some r ->
             exists r', nth_error (Geo.rows data_in_3857) i = Some r'
                        /\ Geo.attributes r' = Geo.attributes r
                        /\ Geo.kind_of (Geo.geom r') = Geo.kind_of (Geo.geom r)
                        /\ Geo.coords (Geo.geom r')
                           = map (transform source 3857%Z)
                                 (Geo.coords (Geo.geom r)))
       /\ Geo.crs data_in_3857 = Some 3857%Z
       /\ Geo.deref (Geo.store s1) "data" = Some data
       /\ (forall r d, nth_error (Geo.heap (Geo.store s)) r = Some d ->
                       nth_error (Geo.heap (Geo.store s1)) r = Some d)
       /\ Geo.disk s1 = Geo.disk s.
Proof.
  intros Hdata Hcrs.
  split; [vm_compute; reflexivity|].
  split; [vm_compute; reflexivity|].
  split; [vm_compute; reflexivity|].
  split; [intros f; apply GeoFacts.to_crs_unset|].
  destruct (GeoFacts.to_crs_defined transform 3857 source data Hcrs)
    as [g Hg].
  destruct (GeoFacts.to_crs_shape transform 3857 data g Hg)
    as (Hlen & Hcols & Htag).
  exists {| Geo.store := Geo.bind_new "data_in_3857" g (Geo.store s);
            Geo.disk := Geo.disk s |}, g.
  split; [unfold Geo.reproject_data; rewrite Hdata, Hg; reflexivity|].
  split; [apply GeoFacts.deref_bind_new_same|].
  split; [exact Hlen|].
  split; [exact Hcols|].
  split; [intros i r; apply (GeoFacts.to_crs_row transform 3857 source data g);
          assumption|].
  split; [exact Htag|].
  split; [apply GeoFacts.deref_bind_new_other; [reflexivity | exact Hdata]|].
  split; [intros r d; apply GeoFacts.heap_bind_new|].
  reflexivity.
Qed.

(** The sample frame, three points in WGS 84: the second row of the result
    keeps its name and is the point at the transformed coordinate. *)
Lemma reprojection_changes_geometry_only_witness :
  Geo.deref (Geo.store (session_with sample_frame)) "data" = Some sample_frame
  /\ Geo.crs sample_frame = Some 4326%Z
  /\ exists s1 data_in_3857,
       Geo.reproject_data sample_transform (session_with sample_frame) = Some s1
       /\ Geo.deref (Geo.store s1) "data_in_3857" = Some data_in_3857
       /\ List.length (Geo.rows data_in_3857) = 3
       /\ (exists r', nth_error (Geo.rows data_in_3857) 1 = Some r'
                      /\ Geo.attributes r' = [("name", Geo.VStr "b")]
                      /\ Geo.coords (Geo.geom r')
                         = [sample_transform 4326 3857 (125, 7)%Q])
       /\ Geo.deref (Geo.store s1) "data" = Some sample_frame.
Proof.
  split; [reflexivity|]. split; [reflexivity|].
  destruct (reprojection_changes_geometry_only sample_transform
              (session_with sample_frame) sample_frame 4326 eq_refl eq_refl)
    as (_ & _ & _ & _ & s1 & d & H1 & H2 & H3 & _ & H5 & _ & H7 & _).
  destruct (H5 1 (sample_row "b" 125 7) eq_refl) as (r' & R1 & R2 & _ & R4).
  exists s1, d.
  refine (conj H1 (conj H2 (conj H3 (conj _ H7)))).
  exists r'. exact (conj R1 (conj R2 R4)).
Defined.

(** C10.  The bounds are unpacked west, south, east, north.  Line 264 is
    [w,s,e,n = data.total_bounds], and the analysis takes [w] and [e] on
    the x axis, [s] and [n] on the y axis.  For every frame with at least
    one row, [total_bounds] is defined; with [w, s, e, n] its components in
    order, [w <= e] and [s <= n]; every coordinate of every geometry of the
    frame lies within them; and each of the four is reached: [w] is the
    least x, [s] the least y, [e] the greatest x, [n] the greatest y. *)
Theorem total_bounds_order (f : Geo.GeoDataFrame) :
  Geo.rows f <> [] ->
  stmts_at 264 script
  = [ SAssign (ETuple [EName "w"; EName "s"; EName "e"; EName "n"])
        (EAttr (EName "data") "total_bounds") ]
  /\ map (lookup (env_after initial_env script)) ["w"; "s"; "e"; "n"]
     = [ACoord X; ACoord Y; ACoord X; ACoord Y]
  /\ exists w s e n : Q,
       option_map Geo.unpack_bounds (Geo.total_bounds f) = Some (w, s, e, n)
       /\ (w <= e)%Q /\ (s <= n)%Q
       /\ (forall r p, In r (Geo.rows f) -> In p (Geo.coords (Geo.geom r)) ->
             (w <= fst p /\ fst p <= e /\ s <= snd p /\ snd p <= n)%Q)
       /\ (exists p, In p (Geo.all_coords f) /\ fst p = w)
       /\ (exists p, In p (Geo.all_coords f) /\ snd p = s)
       /\ (exists p, In p (Geo.all_coords f) /\ fst p = e)
       /\ (exists p, In p (Geo.all_coords f) /\ snd p = n).
Proof.
  intros Hrows.
  split; [vm_compute; reflexivity|].
  split; [vm_compute; reflexivity|].
  pose proof (GeoFacts.all_coords_nonempty f Hrows) as Hne.
  pose proof (GeoFacts.in_all_coords f) as Hin.
  unfold Geo.total_bounds.
  destruct (Geo.all_coords f) as [|p ps]; [contradiction|].
  set (b0 := {| Geo.minx := fst p; Geo.miny := snd p;
                Geo.maxx := fst p; Geo.maxy := snd p |}).
  set (b := fold_left Geo.extend ps b0).
  assert (Hb0 : covers b0 p)
    by (unfold covers, b0; simpl; repeat split; apply Qle_refl).
  assert (Hcov : forall q, In q (p :: ps) -> covers b q).
  { intros q [<- | Hq].
    - apply GeoFacts.fold_extend_base, Hb0.
    - apply GeoFacts.fold_extend_step, Hq. }
  assert (Hatt : attained (fun q => In q (p :: ps)) b).
  { apply GeoFacts.fold_extend_attained.
    - intros q Hq. right. exact Hq.
    - unfold attained, b0; simpl.
      repeat split; exists p; (split; [left|]; reflexivity). }
  exists (Geo.minx b), (Geo.miny b), (Geo.maxx b), (Geo.maxy b).
  destruct (Hcov p (or_introl eq_refl)) as (H1 & H2 & H3 & H4).
  destruct Hatt as (A1 & A2 & A3 & A4).
  split; [reflexivity|].
  split; [eapply Qle_trans; eassumption|].
  split; [eapply Qle_trans; eassumption|].
  split; [intros r q Hr Hq; apply (Hcov q), (Hin r q Hr Hq)|].
  auto.
Qed.

(** The sample frame: longitudes 120 to 125, latitudes 7 to 16. *)
Lemma total_bounds_order_witness :
  Geo.rows sample_frame <> []
  /\ exists w s e n : Q,
       option_map Geo.unpack_bounds (Geo.total_bounds sample_frame)
       = Some (w, s, e, n)
       /\ (w <= e)%Q /\ (s <= n)%Q.
Proof.
  assert (H : Geo.rows sample_frame <> []) by discriminate.
  split; [exact H|].
  destruct (total_bounds_order sample_frame H)
    as (_ & _ & w & s & e & n & H1 & H2 & H3 & _).
  exists w, s, e, n. exact (conj H1 (conj H2 H3)).
Defined.

(* ===================================================================== *)
(** ** Further properties of the script *)
(* ===================================================================== *)

Import Uses.

Lemma mem_In (x : string) (l : list string) : mem x l = true -> In x l.
Proof.
  unfold mem. intros H. apply existsb_exists in H as (y & Hy & He).
  apply String.eqb_eq in He. subst. exact Hy.
Qed.

Lemma mem_false_not_In (x : string) (l : list string) :
  mem x l = false -> ~ In x l.
Proof.
  unfold mem. intros H Hin.
  assert (Ht : existsb (String.eqb x) l = true).
  { apply existsb_exists. exists x. split; [exact Hin | apply String.eqb_refl]. }
  rewrite H in Ht. discriminate Ht.
Qed.

Lemma distinct_NoDup (l : list string) : distinct l = true -> NoDup l.
Proof.
  induction l as [|x l IH]; intros H; [constructor|].
  simpl in H. apply andb_true_iff in H as [Hx Hl].
  constructor; [|apply IH, Hl].
  apply mem_false_not_In. apply negb_true_iff, Hx.
Qed.

(** What [directories_made_first] checks: a directory on the way to a file
    is among those there at the start or was made by an earlier use. *)
Lemma directories_made_first_sound (us : list file_use) :
  forall made : list string,
    directories_made_first made us = true ->
    forall (pre post : list file_use) (u : file_use),
      us = pre ++ u :: post ->
      forall path, In path (read_paths u ++ written_paths u) ->
      forall d, In d (directories path) ->
        In d made \/ exists v, In v pre /\ In d (made_directories v).
Proof.
  induction us as [|u0 us IH]; intros made H pre post u Hsplit path Hp d Hd.
  - destruct pre; discriminate Hsplit.
  - simpl in H. apply andb_true_iff in H as [Hhere Hrest].
    destruct pre as [|v pre].
    + injection Hsplit as -> ->. left.
      rewrite forallb_forall in Hhere. specialize (Hhere path Hp).
      rewrite forallb_forall in Hhere. apply mem_In, Hhere, Hd.
    + injection Hsplit as -> ->.
      destruct (IH _ Hrest pre post u eq_refl path Hp d Hd)
        as [Hin | (w & Hw & Hdw)].
      * apply in_app_or in Hin as [Hin | Hin].
        -- right. exists v. split; [left; reflexivity | exact Hin].
        -- left. exact Hin.
      * right. exists w. split; [right; exact Hw | exact Hdw].
Qed.

(** X1.  No frame is reprojected, exported or drawn before it has a
    reference system.  Every [to_crs], [to_file], [plot] and [explore] is
    called on a frame that carries the reference system of the file it was
    read from or one the script has set.  The one frame built without any,
    [newdata] (line 417), gets EPSG:4326 on line 460, where the result of
    [set_crs] is bound back to [newdata], before its export (line 472) and
    its reprojection (line 479); [set_crs] is called on no frame that
    already has a reference system. *)
Theorem reference_system_before_use :
  crs_tags (receivers "to_crs" script)
  = [ (143, CrsOfFile (Some flood_shp)); (278, CrsOfFile (Some flood_shp));
      (279, CrsOfFile (Some flood_shp)); (479, CrsEPSG 4326) ]
  /\ crs_tags (receivers "to_file" script)
     = [ (407, CrsOfFile (Some flood_shp)); (472, CrsEPSG 4326) ]
  /\ crs_tags (receivers "set_crs" script) = [ (460, CrsUnset) ]
  /\ forallb (fun r => has_crs (snd r))
       (crs_tags (receivers "to_crs" script ++ receivers "to_file" script
                  ++ receivers "plot" script ++ receivers "explore" script))
     = true
  /\ List.length (receivers "to_crs" script ++ receivers "to_file" script
                  ++ receivers "plot" script ++ receivers "explore" script)
     = List.length (calls_named "to_crs" statements
                    ++ calls_named "to_file" statements
                    ++ calls_named "plot" statements
                    ++ calls_named "explore" statements)
  /\ stmts_at 460 script
     = [ SAssign (EName "newdata")
           (ECall (EAttr (EName "newdata") "set_crs") [EStr "epsg:4326"] []) ]
  /\ binders "newdata" script = [417; 460].
Proof. repeat split; vm_compute; reflexivity. Qed.

(** X2.  A basemap is always fetched for the reference system of the data
    it goes under.  For each of the five [ctx.add_basemap] calls, the
    reference system of the frame plotted on the axes it is given equals
    the one the call states: [crs=data.crs] under the four plots of [data]
    (lines 221, 231, 254, 256), and no [crs] argument, which means Web
    Mercator, under the plot of [newdata] reprojected to EPSG:3857
    (line 480). *)
Theorem basemap_matches_plotted_frame :
  basemap_crs initial_env [] script
  = [ (221, (CrsOfFile (Some flood_shp), CrsOfFile (Some flood_shp)));
      (231, (CrsOfFile (Some flood_shp), CrsOfFile (Some flood_shp)));
      (254, (CrsOfFile (Some flood_shp), CrsOfFile (Some flood_shp)));
      (256, (CrsOfFile (Some flood_shp), CrsOfFile (Some flood_shp)));
      (480, (CrsEPSG 3857, CrsEPSG 3857)) ]
  /\ forallb (fun b => crs_tag_eqb (fst (snd b)) (snd (snd b)))
             (basemap_crs initial_env [] script) = true
  /\ List.length (basemap_crs initial_env [] script)
     = List.length (calls_named "add_basemap" statements)
  /\ map (kwarg "crs") (calls_named "add_basemap" statements)
     = [ Some (EAttr (EName "data") "crs"); Some (EAttr (EName "data") "crs");
         Some (EAttr (EName "data") "crs"); Some (EAttr (EName "data") "crs");
         None ].
Proof. repeat split; vm_compute; reflexivity. Qed.

Lemma units_of_file (file_crs : string -> Z) (path : string) (code : Z) :
  file_crs path = code ->
  units_of file_crs (CrsOfFile (Some path)) = Geo.crs_units code.
Proof. intros H. unfold units_of, resolve. rewrite H. reflexivity. Qed.

(** X3.  The tile image and what is drawn over it agree on the reference
    system (lines 262-282).  With the flood file in EPSG:4326: the bounds
    given to [ctx.bounds2img] are those of [data] as read, in degrees, and
    the call says so with [ll=True]; the image comes back in Web Mercator
    (line 277), and on its axes -- [ax] is bound on line 275 and not again
    before line 479 -- the frame plotted (line 278, [ax=ax]) and the bounds
    the axis limits are taken from (lines 279-280) are those of [data]
    reprojected to EPSG:3857, in metres. *)
Theorem tile_figure_reference_systems (file_crs : string -> Z) :
  file_crs flood_shp = 4326%Z ->
  bounds_uses initial_env [] script
  = [ {| use_line := 273; consumer := "bounds2img";
         sources := [CrsOfFile (Some flood_shp); CrsOfFile (Some flood_shp);
                     CrsOfFile (Some flood_shp); CrsOfFile (Some flood_shp)];
         lonlat := Some true |};
      {| use_line := 280; consumer := "set";
         sources := [CrsEPSG 3857; CrsEPSG 3857; CrsEPSG 3857; CrsEPSG 3857];
         lonlat := None |} ]
  /\ forallb (ll_agrees file_crs) (bounds_uses initial_env [] script) = true
  /\ map (fun u => map (units_of file_crs) (sources u))
         (bounds_uses initial_env [] script)
     = [ [Some Geo.Degrees; Some Geo.Degrees; Some Geo.Degrees;
          Some Geo.Degrees];
         [Some Geo.Metres; Some Geo.Metres; Some Geo.Metres;
          Some Geo.Metres] ]
  /\ map (fun r => (fst r, units_of file_crs (crs_of (snd r))))
         (filter (fun r => Nat.eqb (fst r) 278) (receivers "plot" script))
     = [ (278, Some Geo.Metres) ]
  /\ flat_map (fun s => map (kwarg "ax") (calls_to "plot" s))
              (stmts_at 278 script)
     = [ Some (EName "ax") ]
  /\ filter (fun l => Nat.leb 275 l && Nat.ltb l 479) (binders "ax" script)
     = [275].
Proof.
  intros Hcrs.
  assert (Hb : bounds_uses initial_env [] script
               = [ {| use_line := 273; consumer := "bounds2img";
                      sources := [CrsOfFile (Some flood_shp);
                                  CrsOfFile (Some flood_shp);
                                  CrsOfFile (Some flood_shp);
                                  CrsOfFile (Some flood_shp)];
                      lonlat := Some true |};
                   {| use_line := 280; consumer := "set";
                      sources := [CrsEPSG 3857; CrsEPSG 3857; CrsEPSG 3857;
                                  CrsEPSG 3857];
                      lonlat := None |} ])
    by (vm_compute; reflexivity).
  pose proof (units_of_file file_crs flood_shp 4326 Hcrs) as Hu.
  rewrite Hb.
  split; [reflexivity|].
  split; [cbn [forallb ll_agrees lonlat sources]; rewrite Hu; reflexivity|].
  split; [cbn [map sources]; rewrite Hu; reflexivity|].
  repeat split; vm_compute; reflexivity.
Qed.

Lemma tile_figure_reference_systems_witness :
  (fun _ : string => 4326%Z) flood_shp = 4326%Z
  /\ forallb (ll_agrees (fun _ => 4326%Z)) (bounds_uses initial_env [] script)
     = true.
Proof.
  split; [reflexivity|].
  exact (proj1 (proj2 (tile_figure_reference_systems (fun _ => 4326%Z)
                         eq_refl))).
Defined.

(** X4.  A directory is there before a file in it is read or written.
    Taking the statements that touch files in the order of the script:
    every directory on the way to a path given to [gpd.read_file],
    [to_file] or [plt.savefig] was made by an earlier shell command.  The
    Shapefile of line 58 lies in the directory [unzip] extracts to (line
    48); both files of [to_file] lie in [output_data], made by [mkdir] on
    line 394. *)
Theorem directories_exist_before_use
        (pre post : list file_use) (u : file_use) (path d : string) :
  file_uses script = pre ++ u :: post ->
  In path (read_paths u ++ written_paths u) ->
  In d (directories path) ->
  exists v, In v pre /\ In d (made_directories v).
Proof.
  intros Hsplit Hpath Hd.
  assert (Hcheck : directories_made_first [] (file_uses script) = true)
    by (vm_compute; reflexivity).
  destruct (directories_made_first_sound _ [] Hcheck pre post u Hsplit
              path Hpath d Hd) as [[] | H].
  exact H.
Qed.

(** The Shapefile read on line 58: its directory comes from line 48. *)
Lemma directories_exist_before_use_witness :
  file_uses script
  = firstn 1 (file_uses script)
    ++ nth 1 (file_uses script) (file_use_of (0, SExpr ENone, []))
    :: skipn 2 (file_uses script)
  /\ In flood_shp
        (read_paths (nth 1 (file_uses script)
                       (file_use_of (0, SExpr ENone, [])))
         ++ written_paths (nth 1 (file_uses script)
                             (file_use_of (0, SExpr ENone, []))))
  /\ In "philippines_flood_risk" (directories flood_shp)
  /\ exists v, In v (firstn 1 (file_uses script))
               /\ In "philippines_flood_risk" (made_directories v).
Proof.
  assert (H1 : file_uses script
               = firstn 1 (file_uses script)
                 ++ nth 1 (file_uses script) (file_use_of (0, SExpr ENone, []))
                 :: skipn 2 (file_uses script))
    by (vm_compute; reflexivity).
  assert (H2 : In flood_shp
                  (read_paths (nth 1 (file_uses script)
                                 (file_use_of (0, SExpr ENone, [])))
                   ++ written_paths (nth 1 (file_uses script)
                                       (file_use_of (0, SExpr ENone, [])))))
    by (vm_compute; left; reflexivity).
  assert (H3 : In "philippines_flood_risk" (directories flood_shp))
    by (vm_compute; left; reflexivity).
  refine (conj H1 (conj H2 (conj H3 _))).
  exact (directories_exist_before_use _ _ _ _ _ H1 H2 H3).
Defined.

(** X5.  The script overwrites nothing.  The four files it writes -- two
    by [to_file], for which [outfp] is bound anew each time (lines 401 and
    469), and two by [plt.savefig] -- have four different paths; none is a
    path the script reads; and none lies in the directory the archive is
    extracted to. *)
Theorem outputs_never_overwrite :
  flat_map written_paths (file_uses script)
  = [ "watercolor_example.png"; selection_json; campus_shp;
      "MIT_main_campus_poly.png" ]
  /\ flat_map read_paths (file_uses script)
     = [ "phl_ica_floodrisk_geonode_mar2014.zip"; flood_shp; health_geojson ]
  /\ NoDup (flat_map written_paths (file_uses script))
  /\ Forall (fun p => ~ In p (flat_map read_paths (file_uses script)))
            (flat_map written_paths (file_uses script))
  /\ Forall (fun p => ~ In "philippines_flood_risk" (directories p))
            (flat_map written_paths (file_uses script))
  /\ binders "outfp" script = [401; 469].
Proof.
  assert (Hw : flat_map written_paths (file_uses script)
               = [ "watercolor_example.png"; selection_json; campus_shp;
                   "MIT_main_campus_poly.png" ])
    by (vm_compute; reflexivity).
  rewrite Hw.
  split; [reflexivity|].
  split; [vm_compute; reflexivity|].
  split; [apply distinct_NoDup; vm_compute; reflexivity|].
  split; [|split; [|vm_compute; reflexivity]];
    repeat (apply Forall_cons || apply Forall_nil);
    apply mem_false_not_In; vm_compute; reflexivity.
Qed.

(** X6.  A layer control lists every layer of its map.  The script makes
    five interactive maps; [explore(m=m)] draws on the map [m] names at
    that point, which is there each time (lines 350, 369, 374).  The one
    map that gets a layer control (line 383) is the one [folium.Map] made
    on line 366: its two layers were both added before the control (lines
    369 and 374) and both have a name, 'Flood Class' and 'healthcare'.  No
    layer is added to a map after its control. *)
Theorem layer_control_after_layers :
  maps_after script
  = {| map_vars := [("m", 4)];
       map_heap :=
         [ {| made_at := 294; layers := [(294, None)]; control := None |};
           {| made_at := 312; layers := [(312, None)]; control := None |};
           {| made_at := 328; layers := [(328, None)]; control := None |};
           {| made_at := 348; layers := [(348, None); (350, None)];
              control := None |};
           {| made_at := 366;
              layers := [(369, Some "Flood Class"); (374, Some "healthcare")];
              control := Some 383 |} ] |}
  /\ forallb control_covers_layers (map_heap (maps_after script)) = true
  /\ explore_targets {| map_vars := []; map_heap := [] |}
                     (with_env initial_env script)
     = [ (350, Some 3); (369, Some 4); (374, Some 4) ]
  /\ List.length (flat_map layers (map_heap (maps_after script)))
     = List.length (calls_named "explore" statements)
  /\ List.length (calls_named "LayerControl" statements) = 1.
Proof. repeat split; vm_compute; reflexivity. Qed.

(** X7.  After its first try, the script keeps timestamps away from
    [explore] (lines 327-356).  Line 341 replaces the column
    [changeset_timestamp] of the health sites by its string form.  Of the
    three [explore] calls on the health sites, only the first (line 328)
    comes before that and draws the whole frame; the two others (lines 350
    and 374) come after it and draw a selection of seven columns that
    leaves [changeset_timestamp] out and keeps [geometry]. *)
Theorem explore_avoids_timestamps :
  casts_to_str "changeset_timestamp" script = [341]
  /\ explored_columns health_geojson script
     = [ (328, None);
         (350, Some ["name"; "amenity"; "addr_street"; "addr_city";
                     "addr_postcode"; "healthcare"; "geometry"]);
         (374, Some ["name"; "amenity"; "addr_street"; "addr_city";
                     "addr_postcode"; "healthcare"; "geometry"]) ]
  /\ filter (fun u => negb (avoids_timestamp "changeset_timestamp" 341 u))
            (explored_columns health_geojson script)
     = [ (328, None) ]
  /\ List.length (explored_columns health_geojson script)
     + List.length (explored_columns flood_shp script)
     = List.length (calls_named "explore" statements).
Proof. repeat split; vm_compute; reflexivity. Qed.

(** X8.  The flood data is never changed after it is read.  [data] is
    bound once, on line 58; no item of it is ever assigned, and no call of
    the script asks for a change in place ([inplace] is not among the
    keywords passed).  The item assignments of the script go to the health
    sites (line 341) and to [newdata] (lines 420, 443, 450) only; the frame
    of [selection], a slice of [data], is not assigned to either.  So every
    use of [data], and each of its three reprojections, sees the frame as
    it was read. *)
Theorem flood_data_is_read_only :
  binders "data" script = [58]
  /\ mutated (trace script)
     = [ (341, FromFile 320 (Some health_geojson)); (420, InMemory 417);
         (443, InMemory 417); (450, InMemory 417) ]
  /\ List.length (mutated (trace script))
     = List.length (filter (fun s => match s with
                                     | SAssign (ESubscript _ _) _ => true
                                     | _ => false
                                     end) statements)
  /\ keywords_used statements
     = [ "figsize"; "alpha"; "cmap"; "column"; "legend"; "fontsize"; "crs";
         "source"; "ll"; "extent"; "ax"; "epsg"; "xlim"; "ylim"; "tiles";
         "driver"; "m"; "location"; "zoom_start"; "height"; "width"; "name";
         "color" ]
  /\ mem "inplace" (keywords_used statements) = false
  /\ map (fun r => fst r)
         (filter (fun r => origin_eqb (fst (fst (snd r)))
                                      (FromFile 58 (Some flood_shp)))
                 (reprojections (trace script)))
     = [143; 278; 279].
Proof.
  rewrite <- script_trace_eq.
  repeat split; vm_compute; reflexivity.
Qed.
